(** * BedrockNode: the per-command pipeline of a Bedrock node

    A shallow embedding of [BedrockNode::_peekCommand],
    [BedrockNode::_processCommand], [BedrockNode::_abortCommand] and
    [BedrockNode::_cleanCommand] (BedrockNode.cpp), and the properties of
    the pipeline: severity of logged errors, transaction bracketing,
    plugin dispatch, content encoding and command cleanup.

    C++ exceptions of type [const char*] are the [Threw] outcome of a small
    state-and-error monad; everything the pipeline does to its
    collaborators (log lines, calls on the database, calls of plugin
    hooks) is recorded, in order, as a list of events. *)

From Stdlib Require Import String Ascii List Bool Arith Lia.
Import ListNotations.
Open Scope list_scope.
Open Scope string_scope.

(** ** libstuff string helpers

    [SContains], [SStartsWith] and [SIEquals] belong to libstuff, which
    BedrockNode.cpp includes; they are embedded by what they compute on
    [std::string]s. *)
Module Libstuff.

(** [SStartsWith(haystack, needle)]: [needle] is a prefix of [haystack]. *)
Definition SStartsWith (haystack needle : string) : bool :=
  String.prefix needle haystack.

(** [SContains(haystack, needle)]: [needle] occurs somewhere in
    [haystack]. *)
Fixpoint SContains (haystack needle : string) : bool :=
  String.prefix needle haystack
  || match haystack with
     | EmptyString => false
     | String _ rest => SContains rest needle
     end.

(** ASCII lower-casing of one character and of a string. *)
Definition toLowerAscii (c : ascii) : ascii :=
  let n := nat_of_ascii c in
  if ((65 <=? n) && (n <=? 90))%nat then ascii_of_nat (n + 32) else c.

Fixpoint SToLower (s : string) : string :=
  match s with
  | EmptyString => EmptyString
  | String c rest => String (toLowerAscii c) (SToLower rest)
  end.

(** [SIEquals(lhs, rhs)]: equality of strings ignoring letter case. *)
Definition SIEquals (lhs rhs : string) : bool :=
  String.eqb (SToLower lhs) (SToLower rhs).

(** [s.empty()] on a [std::string]. *)
Definition sempty (s : string) : bool :=
  match s with EmptyString => true | _ => false end.

End Libstuff.
Export Libstuff.

(** ** Log severities

    The syslog tiers behind the macros [SDEBUG], [SINFO], [SHMMM], [SWARN],
    [SERROR] and [SALERT]. *)
Inductive Severity : Type :=
| LOG_DEBUG | LOG_INFO | LOG_NOTICE | LOG_WARNING | LOG_ERR | LOG_ALERT.

Definition Severity_eqb (a b : Severity) : bool :=
  match a, b with
  | LOG_DEBUG, LOG_DEBUG | LOG_INFO, LOG_INFO | LOG_NOTICE, LOG_NOTICE
  | LOG_WARNING, LOG_WARNING | LOG_ERR, LOG_ERR | LOG_ALERT, LOG_ALERT => true
  | _, _ => false
  end.

(** The if/else-if chain of both catch blocks (BedrockNode.cpp lines
    127-136 and 220-229): the macro that logs [msg] for the thrown text
    [e]. *)
Definition catchSeverity (e : string) : Severity :=
  if SContains e "_ALERT_" then LOG_ALERT
  else if SContains e "_WARN_" then LOG_WARNING
  else if SContains e "_HMMM_" then LOG_NOTICE
  else if SStartsWith e "50" then LOG_ALERT
  else LOG_INFO.

(** *** The classifier as the specification words it

    The numeric prefix of a signal is the number its leading decimal
    digits spell; the fourth rule of the specification asks whether it lies
    between 500 and 599. *)
Definition digitValue (c : ascii) : option nat :=
  let n := nat_of_ascii c in
  if ((48 <=? n) && (n <=? 57))%nat then Some (n - 48) else None.

Fixpoint numericPrefixFrom (acc : nat) (seen : bool) (s : string) : option nat :=
  match s with
  | EmptyString => if seen then Some acc else None
  | String c rest =>
      match digitValue c with
      | Some d => numericPrefixFrom (10 * acc + d) true rest
      | None => if seen then Some acc else None
      end
  end.

Definition numericPrefix (s : string) : option nat := numericPrefixFrom 0 false s.

Definition is5xx (s : string) : bool :=
  match numericPrefix s with
  | Some n => ((500 <=? n) && (n <=? 599))%nat
  | None => false
  end.

Definition specSeverity (e : string) : Severity :=
  if SContains e "_ALERT_" then LOG_ALERT
  else if SContains e "_WARN_" then LOG_WARNING
  else if SContains e "_HMMM_" then LOG_NOTICE
  else if is5xx e then LOG_ALERT
  else LOG_INFO.

(** ** Data model *)

(** [SData]: a method line, header-like name/value pairs and a raw body. *)
Record SData : Type := mkSData {
  methodLine : string;
  nameValueMap : list (string * string);
  content : string
}.

(** [STable] is a [map<string, string>]; only its emptiness and its JSON
    encoding are looked at here. *)
Definition STable : Type := list (string * string).

Definition tempty (t : STable) : bool :=
  match t with [] => true | _ => false end.

(** The transaction manager that owns an outbound request, by identity. *)
Definition SHTTPSManager : Type := string.

(** [SHTTPSManager::Transaction], as far as [_cleanCommand] reads it: the
    back pointer [owner] (null when absent) and the response received. *)
Record Transaction : Type := mkTransaction {
  owner : option SHTTPSManager;
  fullResponse : SData
}.

(** [BedrockNode::Command]; [httpsRequest] is a pointer, [None] when
    null. *)
Record Command : Type := mkCommand {
  request : SData;
  response : SData;
  jsonContent : STable;
  httpsRequest : option Transaction
}.

(** Modelled from the spec: the [SQLite] class is declared outside
    BedrockNode.cpp.  Section 6 gives its transaction primitives,
    [beginTransaction() -> bool], [getUncommittedQuery() -> text],
    [rollback()] and [prepare() -> bool].  A database is inside a
    transaction or not and carries the text of the uncommitted query;
    whether the engine will accept to begin and to prepare is part of its
    state ([beginOk], [prepareOk]), so that every outcome the pipeline
    guards against can occur. *)
Record SQLite : Type := mkSQLite {
  insideTransaction : bool;
  uncommittedQuery : string;
  beginOk : bool;
  prepareOk : bool
}.

Definition SQLite_beginTransaction (d : SQLite) : bool * SQLite :=
  if beginOk d
  then (true, mkSQLite true (uncommittedQuery d) (beginOk d) (prepareOk d))
  else (false, d).

Definition SQLite_rollback (d : SQLite) : SQLite :=
  mkSQLite false EmptyString (beginOk d) (prepareOk d).

Definition SQLite_prepare (d : SQLite) : bool * SQLite := (prepareOk d, d).

(** ** Outcomes: a value, or a thrown [const char*] *)
Inductive Result (A : Type) : Type :=
| Ok (a : A)
| Threw (e : string).
Arguments Ok {A} a.
Arguments Threw {A} e.

(** A plugin hook is handed the database and the command by reference: it
    returns or throws, and leaves both as it made them. *)
Definition Hook (A : Type) : Type := SQLite -> Command -> Result A * SQLite * Command.

(** [BedrockPlugin]: the virtual methods the node calls.
    [upgradeDatabase] receives the database only. *)
Record BedrockPlugin : Type := mkPlugin {
  getName : string;
  enabled : bool;
  peekCommand : Hook bool;
  processCommand : Hook bool;
  upgradeDatabase : SQLite -> Result unit * SQLite
}.

(** What the node does to its collaborators, in the order it does it. *)
Inductive Event : Type :=
| EvLog (sev : Severity) (msg : string)
| EvBeginTransaction
| EvRollback
| EvPrepare
| EvPeekCommand (plugin : BedrockPlugin)
| EvProcessCommand (plugin : BedrockPlugin)
| EvUpgradeDatabase (plugin : BedrockPlugin)
| EvCloseTransaction (manager : SHTTPSManager) (t : Transaction).

(** The memory a pipeline call works on: the database and the command. *)
Record State : Type := mkState {
  db : SQLite;
  command : Command
}.

(** ** The monad: state, thrown errors, emitted events *)
Definition M (A : Type) : Type := State -> Result A * State * list Event.

Definition ret {A} (a : A) : M A := fun s => (Ok a, s, []).

Definition bind {A B} (m : M A) (f : A -> M B) : M B :=
  fun s =>
    match m s with
    | (Ok a, s1, ev1) =>
        match f a s1 with
        | (r, s2, ev2) => (r, s2, (ev1 ++ ev2)%list)
        end
    | (Threw e, s1, ev1) => (Threw e, s1, ev1)
    end.

Definition throw {A} (e : string) : M A := fun s => (Threw e, s, []).

(** [try { body } catch (const char* e) { handler e }] *)
Definition try_catch {A} (body : M A) (handler : string -> M A) : M A :=
  fun s =>
    match body s with
    | (Ok a, s1, ev1) => (Ok a, s1, ev1)
    | (Threw e, s1, ev1) =>
        match handler e s1 with
        | (r, s2, ev2) => (r, s2, (ev1 ++ ev2)%list)
        end
    end.

Declare Scope bedrock_scope.
Delimit Scope bedrock_scope with bedrock.
Notation "x <- m ;; k" := (bind m (fun x => k))
  (at level 61, m at next level, right associativity) : bedrock_scope.
Notation "m ;; k" := (bind m (fun _ => k))
  (at level 61, right associativity) : bedrock_scope.
Open Scope bedrock_scope.

Definition get : M State := fun s => (Ok s, s, []).
Definition emit (ev : Event) : M unit := fun s => (Ok tt, s, [ev]).

(** Logging macros of libstuff. *)
Definition SDEBUG (msg : string) : M unit := emit (EvLog LOG_DEBUG msg).
Definition SINFO (msg : string) : M unit := emit (EvLog LOG_INFO msg).
Definition SHMMM (msg : string) : M unit := emit (EvLog LOG_NOTICE msg).
Definition SWARN (msg : string) : M unit := emit (EvLog LOG_WARNING msg).
Definition SALERT (msg : string) : M unit := emit (EvLog LOG_ALERT msg).

(** Modelled from the spec: the macro [SERROR] is defined in libstuff, not
    in BedrockNode.cpp.  Section 4.5 has the missing owner "logged as an
    error" with cleanup going on after it, so the macro is a log line of
    error severity that returns. *)
Definition SERROR (msg : string) : M unit := emit (EvLog LOG_ERR msg).

(** Assignments through the references [response] and
    [command->httpsRequest]. *)
Definition set_response_methodLine (c : Command) (v : string) : Command :=
  mkCommand (request c)
            (mkSData v (nameValueMap (response c)) (content (response c)))
            (jsonContent c) (httpsRequest c).

Definition set_response_content (c : Command) (v : string) : Command :=
  mkCommand (request c)
            (mkSData (methodLine (response c)) (nameValueMap (response c)) v)
            (jsonContent c) (httpsRequest c).

Definition set_httpsRequest (c : Command) (v : option Transaction) : Command :=
  mkCommand (request c) (response c) (jsonContent c) v.

Definition assign_response_methodLine (v : string) : M unit :=
  fun s => (Ok tt, mkState (db s) (set_response_methodLine (command s) v), []).

Definition assign_response_content (v : string) : M unit :=
  fun s => (Ok tt, mkState (db s) (set_response_content (command s) v), []).

Definition assign_httpsRequest (v : option Transaction) : M unit :=
  fun s => (Ok tt, mkState (db s) (set_httpsRequest (command s) v), []).

(** Calls on the database. *)
Definition beginTransaction : M bool :=
  fun s => let (b, d) := SQLite_beginTransaction (db s) in
           (Ok b, mkState d (command s), [EvBeginTransaction]).

Definition rollback : M unit :=
  fun s => (Ok tt, mkState (SQLite_rollback (db s)) (command s), [EvRollback]).

Definition prepare : M bool :=
  fun s => let (b, d) := SQLite_prepare (db s) in
           (Ok b, mkState d (command s), [EvPrepare]).

Definition getUncommittedQuery : M string :=
  fun s => (Ok (uncommittedQuery (db s)), s, []).

(** Calls of plugin hooks. *)
Definition call_peekCommand (plugin : BedrockPlugin) : M bool :=
  fun s => match peekCommand plugin (db s) (command s) with
           | (r, d, c) => (r, mkState d c, [EvPeekCommand plugin])
           end.

Definition call_processCommand (plugin : BedrockPlugin) : M bool :=
  fun s => match processCommand plugin (db s) (command s) with
           | (r, d, c) => (r, mkState d c, [EvProcessCommand plugin])
           end.

Definition call_upgradeDatabase (plugin : BedrockPlugin) : M unit :=
  fun s => match upgradeDatabase plugin (db s) with
           | (r, d) => (r, mkState d (command s), [EvUpgradeDatabase plugin])
           end.

(** ** The pipeline *)
Section BedrockNode.

(** libstuff's JSON encoder of a table and [SData::serialize] are used as
    they come; the registry is [*BedrockPlugin::g_registeredPluginList]. *)
Variable SComposeJSONObject : STable -> string.
Variable serialize : SData -> string.
Variable g_registeredPluginList : list BedrockPlugin.

(** The plugin loop of [_peekCommand] (lines 92-102): the value is
    [pluginPeeked] when the loop is left. *)
Fixpoint peekLoop (plugins : list BedrockPlugin) : M bool :=
  match plugins with
  | [] => ret false
  | plugin :: rest =>
      if enabled plugin then
        peeked <- call_peekCommand plugin ;;
        if peeked then
          s <- get ;;
          SINFO ("Plugin '" ++ getName plugin ++ "' peeked command '"
                 ++ methodLine (request (command s)) ++ "'") ;;
          ret true
        else peekLoop rest
      else peekLoop rest
  end.

(** "If a command has set content, encode it in the response": lines
    113-122 of [_peekCommand], and again lines 204-213 of
    [_processCommand]. *)
Definition encodeContent : M unit :=
  s <- get ;;
  if negb (tempty (jsonContent (command s))) then
    let newContent := SComposeJSONObject (jsonContent (command s)) in
    if negb (String.eqb (content (response (command s))) newContent) then
      (if negb (sempty (content (response (command s)))) then
         SWARN ("Replacing existing response content in "
                ++ methodLine (request (command s)))
       else ret tt) ;;
      assign_response_content newContent
    else ret tt
  else ret tt.

(** The chain that picks the log macro in a catch block. *)
Definition logCaught (e msg : string) : M unit :=
  if SContains e "_ALERT_" then SALERT msg
  else if SContains e "_WARN_" then SWARN msg
  else if SContains e "_HMMM_" then SHMMM msg
  else if SStartsWith e "50" then SALERT msg
  else SINFO msg.

(** The try block of [_peekCommand]; [false] is the early
    [return false], [true] is falling out of the block. *)
Definition peekTry : M bool :=
  pluginPeeked <- peekLoop g_registeredPluginList ;;
  if negb pluginPeeked then
    s <- get ;;
    SINFO ("Command '" ++ methodLine (request (command s))
           ++ "' is not peekable, queuing for processing.") ;;
    ret false
  else
    s <- get ;;
    SINFO ("Responding '" ++ methodLine (response (command s))
           ++ "' to read-only '" ++ methodLine (request (command s)) ++ "'.") ;;
    encodeContent ;;
    ret true.

Definition peekCatch (e : string) : M bool :=
  s <- get ;;
  let msg := "Error processing read-only command '"
             ++ methodLine (request (command s)) ++ "' (" ++ e
             ++ "), ignoring: " ++ serialize (request (command s)) in
  logCaught e msg ;;
  assign_response_methodLine e ;;
  ret true.

Definition _peekCommand : M bool :=
  s <- get ;;
  SDEBUG ("Peeking at '" ++ methodLine (request (command s)) ++ "'") ;;
  assign_response_methodLine "200 OK" ;;
  try_catch peekTry peekCatch.

(** The loops of [_processCommand]: the [for_each] over the upgrade hooks
    (lines 161-167) and the first-claim-wins loop (lines 172-182). *)
Fixpoint upgradeLoop (plugins : list BedrockPlugin) : M unit :=
  match plugins with
  | [] => ret tt
  | plugin :: rest =>
      (if enabled plugin then call_upgradeDatabase plugin else ret tt) ;;
      upgradeLoop rest
  end.

Fixpoint processLoop (plugins : list BedrockPlugin) : M bool :=
  match plugins with
  | [] => ret false
  | plugin :: rest =>
      if enabled plugin then
        processed <- call_processCommand plugin ;;
        if processed then
          s <- get ;;
          SINFO ("Plugin '" ++ getName plugin ++ "' processed command '"
                 ++ methodLine (request (command s)) ++ "'") ;;
          ret true
        else processLoop rest
      else processLoop rest
  end.

(** Lines 152-153. *)
Definition beginStep : M unit :=
  began <- beginTransaction ;;
  if negb began then throw "501 Failed to begin transaction" else ret tt.

(** Lines 156-190. *)
Definition dispatchStep : M unit :=
  s <- get ;;
  if SIEquals (methodLine (request (command s))) "UpgradeDatabase" then
    SINFO "Upgrading database" ;;
    upgradeLoop g_registeredPluginList ;;
    SINFO "Finished upgrading database"
  else
    pluginProcessed <- processLoop g_registeredPluginList ;;
    if negb pluginProcessed then
      s' <- get ;;
      SWARN ("Command '" ++ methodLine (request (command s'))
             ++ "' does not exist.") ;;
      throw "430 Unrecognized command"
    else ret tt.

(** Lines 194-198. *)
Definition commitStep : M unit :=
  query <- getUncommittedQuery ;;
  let isQueryEmpty := sempty query in
  if isQueryEmpty then rollback
  else
    prepared <- prepare ;;
    if negb prepared then throw "501 Failed to prepare transaction" else ret tt.

(** Lines 201-213. *)
Definition respondStep : M unit :=
  s <- get ;;
  SINFO ("Responding '" ++ methodLine (response (command s)) ++ "' to '"
         ++ methodLine (request (command s)) ++ "'.") ;;
  encodeContent.

Definition processTry : M unit :=
  beginStep ;; dispatchStep ;; commitStep ;; respondStep.

Definition processCatch (e : string) : M unit :=
  rollback ;;
  s <- get ;;
  let msg := "Error processing command '"
             ++ methodLine (request (command s)) ++ "' (" ++ e
             ++ "), ignoring: " ++ serialize (request (command s)) in
  logCaught e msg ;;
  assign_response_methodLine e.

Definition _processCommand : M unit :=
  s <- get ;;
  SDEBUG ("Received '" ++ methodLine (request (command s)) ++ "'") ;;
  try_catch processTry processCatch.

Definition _abortCommand : M unit :=
  assign_response_methodLine "500 ABORTED".

Definition _cleanCommand : M unit :=
  s <- get ;;
  match httpsRequest (command s) with
  | Some t =>
      match owner t with
      | Some manager => emit (EvCloseTransaction manager t)
      | None =>
          SERROR ("No owner for this https request "
                  ++ methodLine (fullResponse t))
      end ;;
      assign_httpsRequest None
  | None => ret tt
  end.

End BedrockNode.

(** ** Reading a list of events *)

Definition isRollback (ev : Event) : bool :=
  match ev with EvRollback => true | _ => false end.

Definition isPrepare (ev : Event) : bool :=
  match ev with EvPrepare => true | _ => false end.

(** How many times [db.rollback()] and [db.prepare()] were called. *)
Definition rollbacks (evs : list Event) : nat := length (filter isRollback evs).
Definition prepares (evs : list Event) : nat := length (filter isPrepare evs).

(** How many times [db.beginTransaction()] was called. *)
Definition isBegin (ev : Event) : bool :=
  match ev with EvBeginTransaction => true | _ => false end.

Definition begins (evs : list Event) : nat := length (filter isBegin evs).

(** The plugins whose hooks were called, in call order, once per call. *)
Fixpoint peekCalls (evs : list Event) : list BedrockPlugin :=
  match evs with
  | [] => []
  | EvPeekCommand p :: rest => p :: peekCalls rest
  | _ :: rest => peekCalls rest
  end.

Fixpoint processCalls (evs : list Event) : list BedrockPlugin :=
  match evs with
  | [] => []
  | EvProcessCommand p :: rest => p :: processCalls rest
  | _ :: rest => processCalls rest
  end.

Fixpoint upgradeCalls (evs : list Event) : list BedrockPlugin :=
  match evs with
  | [] => []
  | EvUpgradeDatabase p :: rest => p :: upgradeCalls rest
  | _ :: rest => upgradeCalls rest
  end.

(** The log lines, and those of one severity. *)
Fixpoint logged (evs : list Event) : list (Severity * string) :=
  match evs with
  | [] => []
  | EvLog sev msg :: rest => (sev, msg) :: logged rest
  | _ :: rest => logged rest
  end.

Definition loggedAt (sev : Severity) (evs : list Event) : list string :=
  map snd (filter (fun l => Severity_eqb (fst l) sev) (logged evs)).

Definition warnings (evs : list Event) : list string := loggedAt LOG_WARNING evs.

(** An event that is a hook call or a log line of severity [LOG_INFO]:
    all that the plugin loops emit. *)
Definition isDispatchEvent (ev : Event) : bool :=
  match ev with
  | EvLog LOG_INFO _ => true
  | EvPeekCommand _ | EvProcessCommand _ | EvUpgradeDatabase _ => true
  | _ => false
  end.

(** What the hooks of the enabled plugins leave of a state when each is
    run in turn and none stops the loop. *)
Definition afterPeekHook (s : State) (plugin : BedrockPlugin) : State :=
  match peekCommand plugin (db s) (command s) with
  | (_, d, c) => mkState d c
  end.

Definition afterPeekHooks (plugins : list BedrockPlugin) (s : State) : State :=
  fold_left afterPeekHook (filter enabled plugins) s.

(** The state [_peekCommand] hands to the plugin loop. *)
Definition optimistic (s : State) : State :=
  mkState (db s) (set_response_methodLine (command s) "200 OK").

(** *** What the hooks answer along a run

    [onRun hook P plugins s]: every enabled plugin of [plugins], asked in
    registration order through [hook], each on the state the ones before
    it left, gives an outcome for which [P] holds.  Nothing is said of
    what a hook would answer on any other command or database. *)
Fixpoint onRun (hook : BedrockPlugin -> Hook bool)
    (P : State -> Result bool * SQLite * Command -> Prop)
    (plugins : list BedrockPlugin) (s : State) : Prop :=
  match plugins with
  | [] => True
  | plugin :: rest =>
      if enabled plugin then
        P s (hook plugin (db s) (command s))
        /\ onRun hook P rest
                 (match hook plugin (db s) (command s) with
                  | (_, d, c) => mkState d c
                  end)
      else onRun hook P rest s
  end.

(** The hook returned [false]: it neither claimed the command nor
    threw. *)
Definition hookDeclines (s : State) (out : Result bool * SQLite * Command) : Prop :=
  fst (fst out) = Ok false.

(** The hook left the response of the command as it found it. *)
Definition hookKeepsResponse (s : State) (out : Result bool * SQLite * Command) : Prop :=
  response (snd out) = response (command s).


(** ** Describing outcomes *)

(** The database once a transaction has been begun on it. *)
Definition begun (d : SQLite) : SQLite :=
  mkSQLite true (uncommittedQuery d) (beginOk d) (prepareOk d).

(** The command and the log lines the encoding block leaves, for the
    encoder [compose]. *)
Definition encodedCommand (compose : STable -> string) (c : Command) : Command :=
  if tempty (jsonContent c) then c
  else if String.eqb (content (response c)) (compose (jsonContent c)) then c
  else set_response_content c (compose (jsonContent c)).

Definition encodeWarning (compose : STable -> string) (c : Command) : list Event :=
  if tempty (jsonContent c) then []
  else if String.eqb (content (response c)) (compose (jsonContent c)) then []
  else if sempty (content (response c)) then []
  else [EvLog LOG_WARNING
          ("Replacing existing response content in " ++ methodLine (request c))].

(** The texts the two catch blocks log. *)
Definition peekErrorMessage (serialize : SData -> string) (c : Command)
    (e : string) : string :=
  "Error processing read-only command '" ++ methodLine (request c) ++ "' ("
  ++ e ++ "), ignoring: " ++ serialize (request c).

Definition processErrorMessage (serialize : SData -> string) (c : Command)
    (e : string) : string :=
  "Error processing command '" ++ methodLine (request c) ++ "' ("
  ++ e ++ "), ignoring: " ++ serialize (request c).

(** The state a catch block leaves: the status line is the thrown text;
    the process phase has also rolled back. *)
Definition peekCaught (s : State) (e : string) : State :=
  mkState (db s) (set_response_methodLine (command s) e).

Definition processCaught (s : State) (e : string) : State :=
  mkState (SQLite_rollback (db s)) (set_response_methodLine (command s) e).

(** ** Sample collaborators

    A JSON encoder and a serializer in the manner of libstuff's, and a few
    plugins, databases and commands on which the pipeline is run. *)
Module Sample.

Definition dquote : string := String (ascii_of_nat 34) EmptyString.

Definition quoted (s : string) : string := dquote ++ s ++ dquote.

Fixpoint composePairs (t : STable) : string :=
  match t with
  | [] => EmptyString
  | [(k, v)] => quoted k ++ ":" ++ quoted v
  | (k, v) :: rest => quoted k ++ ":" ++ quoted v ++ "," ++ composePairs rest
  end.

(** [{"k":"v",...}] *)
Definition composeJSONObject (t : STable) : string :=
  "{" ++ composePairs t ++ "}".

Fixpoint serializeHeaders (h : list (string * string)) : string :=
  match h with
  | [] => EmptyString
  | (k, v) :: rest => k ++ ": " ++ v ++ " / " ++ serializeHeaders rest
  end.

(** Method line, headers, body. *)
Definition serializeData (d : SData) : string :=
  methodLine d ++ " / " ++ serializeHeaders (nameValueMap d) ++ content d.

Definition emptyData (method : string) : SData := mkSData method [] EmptyString.

(** A command as it is dequeued: a request, nothing in the response. *)
Definition newCommand (method : string) : Command :=
  mkCommand (emptyData method) (emptyData EmptyString) [] None.

(** A database outside any transaction. *)
Definition idleDb (canBegin canPrepare : bool) : SQLite :=
  mkSQLite false EmptyString canBegin canPrepare.

Definition start (canBegin canPrepare : bool) (method : string) : State :=
  mkState (idleDb canBegin canPrepare) (newCommand method).

Definition declineHook : Hook bool := fun d c => (Ok false, d, c).
Definition upgradeNothing : SQLite -> Result unit * SQLite := fun d => (Ok tt, d).

(** Knows no command. *)
Definition idlePlugin (name : string) (on : bool) : BedrockPlugin :=
  mkPlugin name on declineHook declineHook upgradeNothing.

(** Declines every peek, but leaves a note in the response body first. *)
Definition scribblingPlugin : BedrockPlugin :=
  mkPlugin "Scribble" true
           (fun d c => (Ok false, d, set_response_content c "partial"))
           declineHook upgradeNothing.

(** Throws [e] from both command hooks. *)
Definition throwingPlugin (e : string) : BedrockPlugin :=
  mkPlugin "Thrower" true
           (fun d c => (Threw e, d, c)) (fun d c => (Threw e, d, c))
           upgradeNothing.

(** Answers every command with the table [t]; its process hook also
    writes [query] to the database. *)
Definition answeringPlugin (t : STable) (query : string) : BedrockPlugin :=
  mkPlugin "Answer" true
           (fun d c => (Ok true, d,
                        mkCommand (request c) (response c) t (httpsRequest c)))
           (fun d c => (Ok true,
                        mkSQLite (insideTransaction d) query (beginOk d) (prepareOk d),
                        mkCommand (request c) (response c) t (httpsRequest c)))
           upgradeNothing.

(** Its upgrade hook writes a schema statement; it knows no command. *)
Definition schemaPlugin (name : string) (on : bool) : BedrockPlugin :=
  mkPlugin name on declineHook declineHook
           (fun d => (Ok tt, mkSQLite (insideTransaction d)
                                      (uncommittedQuery d ++ "CREATE TABLE " ++ name ++ ";")
                                      (beginOk d) (prepareOk d))).

(** Claims the command [method] only, answering it with the table [t];
    declines every other command. *)
Definition pickyPlugin (method : string) (t : STable) : BedrockPlugin :=
  mkPlugin "Picky" true
           (fun d c => if String.eqb (methodLine (request c)) method
                       then (Ok true, d,
                             mkCommand (request c) (response c) t (httpsRequest c))
                       else (Ok false, d, c))
           (fun d c => if String.eqb (methodLine (request c)) method
                       then (Ok true, d,
                             mkCommand (request c) (response c) t (httpsRequest c))
                       else (Ok false, d, c))
           upgradeNothing.


(** Its upgrade hook fails. *)
Definition brokenSchemaPlugin : BedrockPlugin :=
  mkPlugin "Broken" true declineHook declineHook
           (fun d => (Threw "502 Failed to execute query", d)).

(** A command whose response already has a body. *)
Definition answeredCommand (method body : string) : Command :=
  mkCommand (emptyData method) (mkSData "200 OK" [] body) [] None.

(** A command that holds an outbound request. *)
Definition pendingRequest (manager : option SHTTPSManager) : Transaction :=
  mkTransaction manager (emptyData "200 OK").

Definition waitingCommand (manager : option SHTTPSManager) : Command :=
  mkCommand (emptyData "Charge") (emptyData EmptyString) []
            (Some (pendingRequest manager)).

(** A plugin that answers with one pair and writes one statement, and
    the state it leaves once the transaction is begun and it has claimed
    the command "Write". *)
Definition writer : BedrockPlugin :=
  answeringPlugin [("id", "1")] "INSERT INTO t VALUES (1);".

Definition written (canPrepare : bool) : State :=
  mkState (mkSQLite true "INSERT INTO t VALUES (1);" true canPrepare)
          (mkCommand (emptyData "Write") (emptyData EmptyString) [("id", "1")] None).

(** A plugin that answers with one pair and writes nothing, and the state
    it leaves when it claims a command whose response has the body
    [body], in the peek phase and in the process phase. *)
Definition reader : BedrockPlugin := answeringPlugin [("id", "1")] EmptyString.

Definition readPeeked (body : string) : State :=
  mkState (idleDb true true)
          (mkCommand (emptyData "Read") (mkSData "200 OK" [] body) [("id", "1")] None).

Definition readProcessed (body : string) : State :=
  mkState (SQLite_rollback (begun (idleDb true true)))
          (mkCommand (emptyData "Read") (mkSData "200 OK" [] body) [("id", "1")] None).

(** The two phases and the cleanup, with the sample encoder and
    serializer, on a registry and a state. *)
Definition peek (registry : list BedrockPlugin) : M bool :=
  _peekCommand composeJSONObject serializeData registry.

Definition process (registry : list BedrockPlugin) : M unit :=
  _processCommand composeJSONObject serializeData registry.

End Sample.

(** ** Event lists: counting and projecting across concatenation *)

Lemma rollbacks_app (a b : list Event) :
  rollbacks (a ++ b) = rollbacks a + rollbacks b.
Proof. unfold rollbacks. now rewrite filter_app, length_app. Qed.

Lemma prepares_app (a b : list Event) :
  prepares (a ++ b) = prepares a + prepares b.
Proof. unfold prepares. now rewrite filter_app, length_app. Qed.

Lemma peekCalls_app (a b : list Event) :
  peekCalls (a ++ b) = (peekCalls a ++ peekCalls b)%list.
Proof.
  induction a as [|ev a IH]; simpl; [reflexivity|].
  destruct ev; simpl; now rewrite IH.
Qed.

Lemma processCalls_app (a b : list Event) :
  processCalls (a ++ b) = (processCalls a ++ processCalls b)%list.
Proof.
  induction a as [|ev a IH]; simpl; [reflexivity|].
  destruct ev; simpl; now rewrite IH.
Qed.

Lemma upgradeCalls_app (a b : list Event) :
  upgradeCalls (a ++ b) = (upgradeCalls a ++ upgradeCalls b)%list.
Proof.
  induction a as [|ev a IH]; simpl; [reflexivity|].
  destruct ev; simpl; now rewrite IH.
Qed.

Lemma logged_app (a b : list Event) :
  logged (a ++ b) = (logged a ++ logged b)%list.
Proof.
  induction a as [|ev a IH]; simpl; [reflexivity|].
  destruct ev; simpl; now rewrite IH.
Qed.

Lemma loggedAt_app (sev : Severity) (a b : list Event) :
  loggedAt sev (a ++ b) = (loggedAt sev a ++ loggedAt sev b)%list.
Proof. unfold loggedAt. now rewrite logged_app, filter_app, map_app. Qed.

Lemma warnings_app (a b : list Event) :
  warnings (a ++ b) = (warnings a ++ warnings b)%list.
Proof. apply loggedAt_app. Qed.

(** Hook calls and [LOG_INFO] lines contain no database call and no
    warning. *)
Lemma dispatchEvents_quiet (evs : list Event) :
  forallb isDispatchEvent evs = true ->
  rollbacks evs = 0 /\ prepares evs = 0 /\ warnings evs = [].
Proof.
  induction evs as [|ev evs IH]; simpl; [now auto|].
  intros H. apply andb_true_iff in H. destruct H as [Hev Hevs].
  destruct (IH Hevs) as (Hr & Hp & Hw).
  destruct ev as [sev msg| | | | | | |]; try discriminate Hev;
    try (now repeat split).
  destruct sev; try discriminate Hev. now repeat split.
Qed.

Lemma rollbacks_cons (ev : Event) (evs : list Event) :
  rollbacks (ev :: evs) = (if isRollback ev then 1 else 0) + rollbacks evs.
Proof. unfold rollbacks. simpl. now destruct (isRollback ev). Qed.

Lemma prepares_cons (ev : Event) (evs : list Event) :
  prepares (ev :: evs) = (if isPrepare ev then 1 else 0) + prepares evs.
Proof. unfold prepares. simpl. now destruct (isPrepare ev). Qed.

Lemma rollbacks_nil : rollbacks [] = 0.
Proof. reflexivity. Qed.

Lemma prepares_nil : prepares [] = 0.
Proof. reflexivity. Qed.

(** Push the counters and projections through [++] and [::]. *)
Ltac split_events :=
  repeat first
    [ rewrite rollbacks_app | rewrite rollbacks_cons | rewrite rollbacks_nil
    | rewrite prepares_app | rewrite prepares_cons | rewrite prepares_nil ];
  cbn [isRollback isPrepare].

Ltac split_calls :=
  repeat (progress (rewrite ?peekCalls_app, ?processCalls_app, ?upgradeCalls_app;
                    cbn [peekCalls processCalls upgradeCalls app])).

(** ** Sequencing *)

Lemma bind_Ok {A B} (m : M A) (f : A -> M B) s a s1 ev1 r s2 ev2 :
  m s = (Ok a, s1, ev1) -> f a s1 = (r, s2, ev2) ->
  bind m f s = (r, s2, (ev1 ++ ev2)%list).
Proof. intros Hm Hf. unfold bind. now rewrite Hm, Hf. Qed.

Lemma bind_Threw {A B} (m : M A) (f : A -> M B) s e s1 ev1 :
  m s = (Threw e, s1, ev1) -> bind m f s = (Threw e, s1, ev1).
Proof. intros Hm. unfold bind. now rewrite Hm. Qed.

Lemma bind_inv {A B} (m : M A) (f : A -> M B) s r s2 evs :
  bind m f s = (r, s2, evs) ->
  (exists a s1 ev1 ev2,
      m s = (Ok a, s1, ev1) /\ f a s1 = (r, s2, ev2) /\ evs = (ev1 ++ ev2)%list)
  \/ (exists e, m s = (Threw e, s2, evs) /\ r = Threw e).
Proof.
  unfold bind. destruct (m s) as [[[a|e] s1] ev1].
  - destruct (f a s1) as [[r' s2'] ev2] eqn:Hf. intros H. inversion H; subst.
    left. now exists a, s1, ev1, ev2.
  - intros H. inversion H; subst. right. now exists e.
Qed.

(** ** The building blocks of the pipeline *)
Section Steps.

Variable SComposeJSONObject : STable -> string.
Variable serialize : SData -> string.
Variable g_registeredPluginList : list BedrockPlugin.

(** The catch blocks log one line, at the severity of the chain. *)
Lemma logCaught_eq (e msg : string) (s : State) :
  logCaught e msg s = (Ok tt, s, [EvLog (catchSeverity e) msg]).
Proof.
  unfold logCaught, catchSeverity.
  destruct (SContains e "_ALERT_"); [reflexivity|].
  destruct (SContains e "_WARN_"); [reflexivity|].
  destruct (SContains e "_HMMM_"); [reflexivity|].
  destruct (SStartsWith e "50"); reflexivity.
Qed.

(** Whatever the plugins do, the loops emit hook calls and [LOG_INFO]
    lines only. *)
Lemma peekLoop_events (plugins : list BedrockPlugin) :
  forall s r s' evs,
    peekLoop plugins s = (r, s', evs) -> forallb isDispatchEvent evs = true.
Proof.
  induction plugins as [|p rest IH]; intros s r s' evs H; simpl in H.
  - inversion H; reflexivity.
  - destruct (enabled p); [|now apply IH in H].
    unfold bind, call_peekCommand in H.
    destruct (peekCommand p (db s) (command s)) as [[[b|e] d] c].
    + destruct b.
      * simpl in H. inversion H; reflexivity.
      * destruct (peekLoop rest (mkState d c)) as [[r1 s1] ev1] eqn:E.
        inversion H; subst. simpl. now apply IH in E.
    + inversion H; reflexivity.
Qed.

Lemma processLoop_events (plugins : list BedrockPlugin) :
  forall s r s' evs,
    processLoop plugins s = (r, s', evs) -> forallb isDispatchEvent evs = true.
Proof.
  induction plugins as [|p rest IH]; intros s r s' evs H; simpl in H.
  - inversion H; reflexivity.
  - destruct (enabled p); [|now apply IH in H].
    unfold bind, call_processCommand in H.
    destruct (processCommand p (db s) (command s)) as [[[b|e] d] c].
    + destruct b.
      * simpl in H. inversion H; reflexivity.
      * destruct (processLoop rest (mkState d c)) as [[r1 s1] ev1] eqn:E.
        inversion H; subst. simpl. now apply IH in E.
    + inversion H; reflexivity.
Qed.

Lemma upgradeLoop_events (plugins : list BedrockPlugin) :
  forall s r s' evs,
    upgradeLoop plugins s = (r, s', evs) -> forallb isDispatchEvent evs = true.
Proof.
  induction plugins as [|p rest IH]; intros s r s' evs H; simpl in H.
  - inversion H; reflexivity.
  - unfold bind in H. destruct (enabled p).
    + unfold call_upgradeDatabase in H.
      destruct (upgradeDatabase p (db s)) as [[[]|e] d].
      * destruct (upgradeLoop rest (mkState d (command s))) as [[r1 s1] ev1] eqn:E.
        inversion H; subst. simpl. now apply IH in E.
      * inversion H; reflexivity.
    + simpl in H.
      destruct (upgradeLoop rest s) as [[r1 s1] ev1] eqn:E.
      inversion H; subst. simpl. now apply IH in E.
Qed.

(** *** The steps of the process phase, one by one *)

Lemma beginStep_eq (s : State) :
  beginStep s =
  if beginOk (db s)
  then (Ok tt, mkState (begun (db s)) (command s), [EvBeginTransaction])
  else (Threw "501 Failed to begin transaction", s, [EvBeginTransaction]).
Proof.
  destruct s as [d c]. unfold beginStep, bind, beginTransaction,
    SQLite_beginTransaction, begun. simpl.
  destruct (beginOk d); reflexivity.
Qed.

Lemma commitStep_eq (s : State) :
  commitStep s =
  if sempty (uncommittedQuery (db s))
  then (Ok tt, mkState (SQLite_rollback (db s)) (command s), [EvRollback])
  else if prepareOk (db s)
       then (Ok tt, s, [EvPrepare])
       else (Threw "501 Failed to prepare transaction", s, [EvPrepare]).
Proof.
  destruct s as [d c]. unfold commitStep, bind, getUncommittedQuery. simpl.
  destruct (sempty (uncommittedQuery d)); [reflexivity|].
  unfold prepare, SQLite_prepare. simpl.
  destruct (prepareOk d); reflexivity.
Qed.

Lemma encodeContent_eq (s : State) :
  encodeContent SComposeJSONObject s =
  (Ok tt, mkState (db s) (encodedCommand SComposeJSONObject (command s)),
   encodeWarning SComposeJSONObject (command s)).
Proof.
  destruct s as [d c]. unfold encodeContent, encodedCommand, encodeWarning, bind.
  simpl. destruct (tempty (jsonContent c)); [reflexivity|]. simpl.
  destruct (String.eqb (content (response c)) (SComposeJSONObject (jsonContent c)));
    [reflexivity|]. simpl.
  destruct (sempty (content (response c))); reflexivity.
Qed.

Lemma respondStep_eq (s : State) :
  respondStep SComposeJSONObject s =
  (Ok tt, mkState (db s) (encodedCommand SComposeJSONObject (command s)),
   EvLog LOG_INFO ("Responding '" ++ methodLine (response (command s)) ++ "' to '"
                   ++ methodLine (request (command s)) ++ "'.")
   :: encodeWarning SComposeJSONObject (command s)).
Proof.
  unfold respondStep, bind. simpl. now rewrite encodeContent_eq.
Qed.

Lemma processCatch_eq (e : string) (s : State) :
  processCatch serialize e s =
  (Ok tt, processCaught s e,
   [EvRollback;
    EvLog (catchSeverity e) (processErrorMessage serialize (command s) e)]).
Proof.
  unfold processCatch, bind. simpl. now rewrite logCaught_eq.
Qed.

Lemma peekCatch_eq (e : string) (s : State) :
  peekCatch serialize e s =
  (Ok true, peekCaught s e,
   [EvLog (catchSeverity e) (peekErrorMessage serialize (command s) e)]).
Proof.
  unfold peekCatch, bind. simpl. now rewrite logCaught_eq.
Qed.

(** The encoding block touches neither the status line nor the request. *)
Lemma encodedCommand_methodLine (c : Command) :
  methodLine (response (encodedCommand SComposeJSONObject c)) = methodLine (response c)
  /\ request (encodedCommand SComposeJSONObject c) = request c.
Proof.
  unfold encodedCommand. destruct (tempty (jsonContent c)); [now split|].
  destruct (String.eqb _ _); now split.
Qed.

Lemma encodeWarning_quiet (c : Command) :
  rollbacks (encodeWarning SComposeJSONObject c) = 0
  /\ prepares (encodeWarning SComposeJSONObject c) = 0
  /\ processCalls (encodeWarning SComposeJSONObject c) = []
  /\ upgradeCalls (encodeWarning SComposeJSONObject c) = [].
Proof.
  unfold encodeWarning. destruct (tempty (jsonContent c)); [now repeat split|].
  destruct (String.eqb _ _); [now repeat split|].
  destruct (sempty _); now repeat split.
Qed.

(** The dispatch step calls neither [rollback] nor [prepare]. *)
Lemma dispatchStep_no_db_call (s : State) r s' evs :
  dispatchStep g_registeredPluginList s = (r, s', evs) ->
  rollbacks evs = 0 /\ prepares evs = 0.
Proof.
  unfold dispatchStep, bind. simpl.
  destruct (SIEquals (methodLine (request (command s))) "UpgradeDatabase").
  - simpl. destruct (upgradeLoop g_registeredPluginList s) as [[[[]|e] s1] ev1] eqn:E;
      apply upgradeLoop_events, dispatchEvents_quiet in E;
      destruct E as (Hr & Hp & _); intros H; inversion H; subst;
      split_events; lia.
  - destruct (processLoop g_registeredPluginList s) as [[[b|e] s1] ev1] eqn:E;
      apply processLoop_events, dispatchEvents_quiet in E;
      destruct E as (Hr & Hp & _); intros H.
    + destruct b; simpl in H; inversion H; subst; split_events; lia.
    + inversion H; subst. now split.
Qed.

Lemma bind_assoc {A B C} (m : M A) (f : A -> M B) (g : B -> M C) (s : State) :
  bind (bind m f) g s = bind m (fun a => bind (f a) g) s.
Proof.
  unfold bind. destruct (m s) as [[[a|e] s1] ev1]; [|reflexivity].
  destruct (f a s1) as [[[b|e] s2] ev2]; [|reflexivity].
  destruct (g b s2) as [[r s3] ev3]. now rewrite app_assoc.
Qed.

(** The process phase up to and including dispatch. *)
Lemma beginAndDispatch_no_rollback_no_prepare (s : State) r s1 ev1 :
  (beginStep ;; dispatchStep g_registeredPluginList) s = (r, s1, ev1) ->
  rollbacks ev1 = 0 /\ prepares ev1 = 0.
Proof.
  intros H. apply bind_inv in H.
  destruct H as [(a & s0 & ev0 & ev2 & Hb & Hd & ->)|(e & Hb & _)].
  - rewrite beginStep_eq in Hb. destruct (beginOk (db s)); [|discriminate].
    inversion Hb; subst. apply dispatchStep_no_db_call in Hd.
    destruct Hd as [Hr Hp]. split_events. lia.
  - rewrite beginStep_eq in Hb. destruct (beginOk (db s)); [discriminate|].
    inversion Hb; subst. now split.
Qed.

(** The try block of [_processCommand], split after dispatch. *)
Lemma processTry_split (s : State) :
  processTry SComposeJSONObject g_registeredPluginList s =
  bind (beginStep ;; dispatchStep g_registeredPluginList)
       (fun _ => commitStep ;; respondStep SComposeJSONObject) s.
Proof. unfold processTry. now rewrite bind_assoc. Qed.

(** What follows a successful dispatch. *)
Lemma commit_and_respond_eq (s : State) :
  (commitStep ;; respondStep SComposeJSONObject) s =
  if sempty (uncommittedQuery (db s))
  then (Ok tt,
        mkState (SQLite_rollback (db s)) (encodedCommand SComposeJSONObject (command s)),
        EvRollback
        :: EvLog LOG_INFO ("Responding '" ++ methodLine (response (command s))
                           ++ "' to '" ++ methodLine (request (command s)) ++ "'.")
        :: encodeWarning SComposeJSONObject (command s))
  else if prepareOk (db s)
       then (Ok tt,
             mkState (db s) (encodedCommand SComposeJSONObject (command s)),
             EvPrepare
             :: EvLog LOG_INFO ("Responding '" ++ methodLine (response (command s))
                                ++ "' to '" ++ methodLine (request (command s)) ++ "'.")
             :: encodeWarning SComposeJSONObject (command s))
       else (Threw "501 Failed to prepare transaction", s, [EvPrepare]).
Proof.
  unfold bind. rewrite commitStep_eq.
  destruct (sempty (uncommittedQuery (db s))).
  - now rewrite respondStep_eq.
  - destruct (prepareOk (db s)); [|reflexivity]. now rewrite respondStep_eq.
Qed.

(** An error leaves the try block before any rollback. *)
Lemma processTry_threw_no_rollback (s : State) e s1 ev1 :
  processTry SComposeJSONObject g_registeredPluginList s = (Threw e, s1, ev1) ->
  rollbacks ev1 = 0.
Proof.
  rewrite processTry_split. intros H. apply bind_inv in H.
  destruct H as [([] & s0 & ev0 & ev2 & Hd & Hc & ->)|(e' & Hd & _)].
  - apply beginAndDispatch_no_rollback_no_prepare in Hd. destruct Hd as [Hr _].
    rewrite commit_and_respond_eq in Hc.
    destruct (sempty (uncommittedQuery (db s0))); [discriminate|].
    destruct (prepareOk (db s0)); [discriminate|].
    inversion Hc; subst. split_events. lia.
  - now apply beginAndDispatch_no_rollback_no_prepare in Hd.
Qed.

(** [_processCommand] is its try block, with the catch block run on what
    the try block threw. *)
Lemma processCommand_eq (s : State) :
  _processCommand SComposeJSONObject serialize g_registeredPluginList s =
  match processTry SComposeJSONObject g_registeredPluginList s with
  | (Ok a, s1, ev1) =>
      (Ok a, s1,
       EvLog LOG_DEBUG ("Received '" ++ methodLine (request (command s)) ++ "'") :: ev1)
  | (Threw e, s1, ev1) =>
      (Ok tt, processCaught s1 e,
       EvLog LOG_DEBUG ("Received '" ++ methodLine (request (command s)) ++ "'")
       :: (ev1 ++ [EvRollback;
                   EvLog (catchSeverity e)
                         (processErrorMessage serialize (command s1) e)])%list)
  end.
Proof.
  unfold _processCommand, bind, try_catch. simpl.
  destruct (processTry SComposeJSONObject g_registeredPluginList s) as [[[a|e] s1] ev1];
    [reflexivity|].
  now rewrite processCatch_eq.
Qed.

(** No error leaves [_processCommand]. *)
Lemma processCommand_returns (s : State) :
  exists s' evs,
    _processCommand SComposeJSONObject serialize g_registeredPluginList s = (Ok tt, s', evs).
Proof.
  rewrite processCommand_eq.
  destruct (processTry SComposeJSONObject g_registeredPluginList s) as [[[[]|e] s1] ev1];
    eauto.
Qed.

(** Where the errors of the process phase come from. *)
Lemma processTry_begin_fails (s : State) :
  beginOk (db s) = false ->
  processTry SComposeJSONObject g_registeredPluginList s =
  (Threw "501 Failed to begin transaction", s, [EvBeginTransaction]).
Proof.
  intros H. unfold processTry. apply bind_Threw. now rewrite beginStep_eq, H.
Qed.

Lemma processTry_prepare_fails (s s1 : State) ev1 :
  (beginStep ;; dispatchStep g_registeredPluginList) s = (Ok tt, s1, ev1) ->
  sempty (uncommittedQuery (db s1)) = false ->
  prepareOk (db s1) = false ->
  processTry SComposeJSONObject g_registeredPluginList s =
  (Threw "501 Failed to prepare transaction", s1, (ev1 ++ [EvPrepare])%list).
Proof.
  intros Hd Hq Hp. rewrite processTry_split.
  eapply bind_Ok; [exact Hd|]. now rewrite commit_and_respond_eq, Hq, Hp.
Qed.

Lemma processTry_dispatch_throws (s s1 : State) e ev1 :
  beginOk (db s) = true ->
  dispatchStep g_registeredPluginList (mkState (begun (db s)) (command s))
  = (Threw e, s1, ev1) ->
  processTry SComposeJSONObject g_registeredPluginList s
  = (Threw e, s1, EvBeginTransaction :: ev1).
Proof.
  intros Hbegin Hd. unfold processTry. unfold bind at 1. rewrite beginStep_eq, Hbegin.
  unfold bind at 1. now rewrite Hd.
Qed.

(** ** The process phase: errors *)

(** C2. Every error raised in the try block of the process phase, be it
    the failure to begin the transaction, an error thrown during plugin
    dispatch or the failure to prepare, ends in the catch block: the call
    returns normally, [rollback] has been called exactly once in the whole
    call and the database is outside any transaction, the status line of
    the response is the text of the error, and one line has been logged
    for it at the severity the classifier gives that text. *)
Theorem process_error_caught_rolled_back_once (s : State) e s1 ev1 :
  processTry SComposeJSONObject g_registeredPluginList s = (Threw e, s1, ev1) ->
  exists s2 evs,
    _processCommand SComposeJSONObject serialize g_registeredPluginList s
    = (Ok tt, s2, evs)
    /\ rollbacks evs = 1
    /\ insideTransaction (db s2) = false
    /\ methodLine (response (command s2)) = e
    /\ loggedAt (catchSeverity e) evs <> []
    /\ exists before,
        evs = (before
               ++ [EvRollback;
                   EvLog (catchSeverity e)
                         (processErrorMessage serialize (command s1) e)])%list.
Proof.
  intros H. pose proof (processTry_threw_no_rollback _ _ _ _ H) as Hr.
  eexists _, _. rewrite processCommand_eq, H.
  split; [reflexivity|]. repeat split.
  - split_events. lia.
  - rewrite app_comm_cons, loggedAt_app. unfold loggedAt at 2. simpl.
    assert (Hrefl : Severity_eqb (catchSeverity e) (catchSeverity e) = true)
      by (destruct (catchSeverity e); reflexivity).
    rewrite Hrefl. simpl. intros Habs. apply app_eq_nil in Habs.
    destruct Habs as [_ Habs]. discriminate Habs.
  - exists (EvLog LOG_DEBUG ("Received '" ++ methodLine (request (command s)) ++ "'")
            :: ev1). reflexivity.
Qed.

(** ** The process phase: after a successful dispatch *)

(** C3. When the transaction was begun and dispatch ended without an
    error: with an empty uncommitted query the transaction is rolled back
    and [prepare] is not called; otherwise [prepare] is called exactly
    once, and when it fails the call ends in the catch block, with status
    line "501 Failed to prepare transaction" and one [rollback]. *)
Theorem process_commit_step_after_dispatch (s s1 : State) ev1 :
  (beginStep ;; dispatchStep g_registeredPluginList) s = (Ok tt, s1, ev1) ->
  exists s2 evs,
    _processCommand SComposeJSONObject serialize g_registeredPluginList s
    = (Ok tt, s2, evs)
    /\ (uncommittedQuery (db s1) = EmptyString ->
        rollbacks evs = 1 /\ prepares evs = 0
        /\ insideTransaction (db s2) = false)
    /\ (uncommittedQuery (db s1) <> EmptyString ->
        prepares evs = 1
        /\ (prepareOk (db s1) = true -> rollbacks evs = 0)
        /\ (prepareOk (db s1) = false ->
            methodLine (response (command s2)) = "501 Failed to prepare transaction"
            /\ rollbacks evs = 1
            /\ insideTransaction (db s2) = false
            /\ In (EvLog LOG_ALERT
                         (processErrorMessage serialize (command s1)
                            "501 Failed to prepare transaction")) evs)).
Proof.
  intros H. pose proof (beginAndDispatch_no_rollback_no_prepare _ _ _ _ H) as [Hr Hp].
  rewrite processCommand_eq, processTry_split.
  unfold bind at 1. rewrite H, commit_and_respond_eq.
  destruct (encodeWarning_quiet (command s1)) as (Wr & Wp & _).
  destruct (sempty (uncommittedQuery (db s1))) eqn:Hq.
  - eexists _, _. split; [reflexivity|]. split.
    + intros _. repeat split; split_events; lia.
    + intros Hne. destruct (uncommittedQuery (db s1)); [now elim Hne|discriminate Hq].
  - destruct (prepareOk (db s1)) eqn:Hok.
    + eexists _, _. split; [reflexivity|]. split.
      * intros Hempty. rewrite Hempty in Hq. discriminate Hq.
      * intros _. split; [|split; [intros _|intros Habs; discriminate Habs]];
          split_events; lia.
    + eexists _, _. split; [reflexivity|]. split.
      * intros Hempty. rewrite Hempty in Hq. discriminate Hq.
      * intros _. split; [|split; [intros Habs; discriminate Habs|intros _]].
        -- split_events. lia.
        -- repeat split.
           ++ split_events. lia.
           ++ right. apply in_or_app. right. right. left. reflexivity.
Qed.

(** *** The peek phase *)

Lemma peekTry_eq (s : State) :
  peekTry SComposeJSONObject g_registeredPluginList s =
  match peekLoop g_registeredPluginList s with
  | (Ok false, s1, ev1) =>
      (Ok false, s1,
       (ev1 ++ [EvLog LOG_INFO
                  ("Command '" ++ methodLine (request (command s1))
                   ++ "' is not peekable, queuing for processing.")])%list)
  | (Ok true, s1, ev1) =>
      (Ok true, mkState (db s1) (encodedCommand SComposeJSONObject (command s1)),
       (ev1 ++ EvLog LOG_INFO
                 ("Responding '" ++ methodLine (response (command s1))
                  ++ "' to read-only '" ++ methodLine (request (command s1)) ++ "'.")
            :: encodeWarning SComposeJSONObject (command s1))%list)
  | (Threw e, s1, ev1) => (Threw e, s1, ev1)
  end.
Proof.
  unfold peekTry, bind.
  destruct (peekLoop g_registeredPluginList s) as [[[[|]|e] s1] ev1]; simpl;
    try reflexivity.
  rewrite encodeContent_eq. simpl. now rewrite app_nil_r.
Qed.

Lemma peekCommand_eq (s : State) :
  _peekCommand SComposeJSONObject serialize g_registeredPluginList s =
  match peekTry SComposeJSONObject g_registeredPluginList (optimistic s) with
  | (Ok b, s1, ev1) =>
      (Ok b, s1,
       EvLog LOG_DEBUG ("Peeking at '" ++ methodLine (request (command s)) ++ "'") :: ev1)
  | (Threw e, s1, ev1) =>
      (Ok true, peekCaught s1 e,
       EvLog LOG_DEBUG ("Peeking at '" ++ methodLine (request (command s)) ++ "'")
       :: (ev1 ++ [EvLog (catchSeverity e)
                         (peekErrorMessage serialize (command s1) e)])%list)
  end.
Proof.
  unfold _peekCommand, bind, try_catch, optimistic. simpl.
  destruct (peekTry SComposeJSONObject g_registeredPluginList
              (mkState (db s) (set_response_methodLine (command s) "200 OK")))
    as [[[b|e] s1] ev1]; [reflexivity|].
  now rewrite peekCatch_eq.
Qed.

(** No error leaves [_peekCommand]. *)
Lemma peekCommand_returns (s : State) :
  exists b s' evs,
    _peekCommand SComposeJSONObject serialize g_registeredPluginList s = (Ok b, s', evs).
Proof.
  rewrite peekCommand_eq.
  destruct (peekTry SComposeJSONObject g_registeredPluginList (optimistic s))
    as [[[b|e] s1] ev1]; eauto.
Qed.

(** An error that leaves the loop was thrown by the peek hook of an
    enabled plugin of the list. *)
Lemma peekLoop_threw_by_plugin (plugins : list BedrockPlugin) :
  forall s e s1 ev1,
    peekLoop plugins s = (Threw e, s1, ev1) ->
    exists p d c,
      In p plugins /\ enabled p = true /\ fst (fst (peekCommand p d c)) = Threw e.
Proof.
  induction plugins as [|p rest IH]; intros s e s1 ev1 H; simpl in H; [discriminate|].
  destruct (enabled p) eqn:Hen.
  - unfold bind, call_peekCommand in H.
    destruct (peekCommand p (db s) (command s)) as [[[b|e'] d] c] eqn:Hp.
    + destruct b; [simpl in H; discriminate|].
      destruct (peekLoop rest (mkState d c)) as [[r1 s2] ev2] eqn:E.
      inversion H; subst. destruct (IH _ _ _ _ E) as (q & d' & c' & Hq & Hqe & Hthrow).
      exists q, d', c'. split; [now right|now split].
    + inversion H; subst. exists p, (db s), (command s).
      split; [now left|]. split; [assumption|]. now rewrite Hp.
  - destruct (IH _ _ _ _ H) as (q & d' & c' & Hq & Hqe & Hthrow).
    exists q, d', c'. split; [now right|now split].
Qed.

Lemma peekCalls_map (plugins : list BedrockPlugin) :
  peekCalls (map EvPeekCommand plugins) = plugins.
Proof. induction plugins as [|p rest IH]; simpl; congruence. Qed.

Lemma warnings_cons (ev : Event) (evs : list Event) :
  warnings (ev :: evs) = (warnings [ev] ++ warnings evs)%list.
Proof. apply (warnings_app [ev] evs). Qed.

(** A dispatch step that ends without an error has warned of nothing. *)
Lemma dispatchStep_ok_no_warning (s : State) s' evs :
  dispatchStep g_registeredPluginList s = (Ok tt, s', evs) -> warnings evs = [].
Proof.
  unfold dispatchStep, bind. simpl.
  destruct (SIEquals (methodLine (request (command s))) "UpgradeDatabase").
  - simpl. destruct (upgradeLoop g_registeredPluginList s) as [[[[]|e] s1] ev1] eqn:E;
      [|discriminate].
    apply upgradeLoop_events, dispatchEvents_quiet in E. destruct E as (_ & _ & Hw).
    intros H. inversion H; subst.
    rewrite warnings_cons, warnings_app, Hw. reflexivity.
  - destruct (processLoop g_registeredPluginList s) as [[[b|e] s1] ev1] eqn:E;
      [|discriminate].
    apply processLoop_events, dispatchEvents_quiet in E. destruct E as (_ & _ & Hw).
    destruct b; simpl; [|discriminate].
    intros H. inversion H; subst. now rewrite app_nil_r.
Qed.

(** The try block of [_processCommand], split before the response is
    written. *)
Lemma processTry_split_respond (s : State) :
  processTry SComposeJSONObject g_registeredPluginList s =
  bind (beginStep ;; dispatchStep g_registeredPluginList ;; commitStep)
       (fun _ => respondStep SComposeJSONObject) s.
Proof.
  unfold processTry, bind.
  destruct (beginStep s) as [[[[]|e] sa] eva]; [|reflexivity].
  destruct (dispatchStep g_registeredPluginList sa) as [[[[]|e] sb] evb]; [|reflexivity].
  destruct (commitStep sb) as [[[[]|e] sc] evc]; [|reflexivity].
  destruct (respondStep SComposeJSONObject sc) as [[r sd] evd].
  now rewrite !app_assoc.
Qed.

Lemma beginDispatchCommit_ok_no_warning (s s1 : State) ev1 :
  (beginStep ;; dispatchStep g_registeredPluginList ;; commitStep) s = (Ok tt, s1, ev1) ->
  warnings ev1 = [].
Proof.
  intros H. apply bind_inv in H.
  destruct H as [([] & sa & eva & evb & Hb & H & ->)|(e & _ & Habs)]; [|discriminate].
  apply bind_inv in H.
  destruct H as [([] & sb & evc & evd & Hd & Hc & ->)|(e & _ & Habs)]; [|discriminate].
  apply dispatchStep_ok_no_warning in Hd.
  rewrite beginStep_eq in Hb. rewrite commitStep_eq in Hc.
  destruct (beginOk (db s)); [|discriminate]. inversion Hb; subst.
  rewrite !warnings_app, Hd. simpl.
  destruct (sempty (uncommittedQuery (db sb))).
  - inversion Hc; subst. reflexivity.
  - destruct (prepareOk (db sb)); [|discriminate]. inversion Hc; subst. reflexivity.
Qed.

Lemma encodedCommand_replaced (c : Command) :
  jsonContent c <> [] ->
  SComposeJSONObject (jsonContent c) <> content (response c) ->
  content (response (encodedCommand SComposeJSONObject c)) = SComposeJSONObject (jsonContent c)
  /\ warnings (encodeWarning SComposeJSONObject c)
     = if sempty (content (response c)) then []
       else ["Replacing existing response content in " ++ methodLine (request c)].
Proof.
  intros Hne Hdiff. unfold encodedCommand, encodeWarning.
  destruct (jsonContent c) as [|kv t] eqn:Ht; [now elim Hne|]. simpl tempty. cbv iota.
  destruct (String.eqb (content (response c)) (SComposeJSONObject (kv :: t))) eqn:Heq.
  - apply String.eqb_eq in Heq. now elim Hdiff.
  - split; [reflexivity|]. destruct (sempty (content (response c))); reflexivity.
Qed.

(** When every enabled plugin declines along the run, the peek loop calls
    each of them once, in order, and says [false]. *)
Lemma peekLoop_declining_run (plugins : list BedrockPlugin) :
  forall s,
    onRun peekCommand hookDeclines plugins s ->
    peekLoop plugins s =
    (Ok false, afterPeekHooks plugins s, map EvPeekCommand (filter enabled plugins)).
Proof.
  unfold afterPeekHooks.
  induction plugins as [|p rest IH]; intros s Hrun; simpl; [reflexivity|].
  simpl in Hrun. destruct (enabled p) eqn:Hen; [|now apply IH].
  destruct Hrun as [Hp Hrest]. unfold hookDeclines in Hp.
  unfold bind, call_peekCommand. simpl. unfold afterPeekHook at 2.
  destruct (peekCommand p (db s) (command s)) as [[r d] c]. simpl in Hp. subst r.
  now rewrite (IH _ Hrest).
Qed.

(** Hooks that keep the response along the run leave, together, the
    response they were first given. *)
Lemma afterPeekHooks_response (plugins : list BedrockPlugin) :
  forall s,
    onRun peekCommand hookKeepsResponse plugins s ->
    response (command (afterPeekHooks plugins s)) = response (command s).
Proof.
  unfold afterPeekHooks.
  induction plugins as [|p rest IH]; intros s Hrun; simpl; [reflexivity|].
  simpl in Hrun. destruct (enabled p) eqn:Hen; [|now apply IH].
  destruct Hrun as [Hp Hrest]. unfold hookKeepsResponse in Hp.
  simpl. unfold afterPeekHook at 2.
  destruct (peekCommand p (db s) (command s)) as [[r d] c]. simpl in Hp.
  rewrite (IH _ Hrest). exact Hp.
Qed.

(** ** The peek phase *)

(** C4, as amended. When every enabled plugin, asked in turn in this
    attempt, declines, [_peekCommand] returns [false]; it has called the
    peek hook of each enabled plugin once, in registration order, and the
    state it leaves is the one these hooks made of the state with status
    line "200 OK": the pipeline itself changes nothing else and undoes
    nothing.  So whenever the hooks called leave the response as they
    find it, the response differs from the one received in its status
    line only. *)
Theorem peek_unclaimed_keeps_what_hooks_left (s : State) :
  onRun peekCommand hookDeclines g_registeredPluginList (optimistic s) ->
  exists evs,
    _peekCommand SComposeJSONObject serialize g_registeredPluginList s
    = (Ok false, afterPeekHooks g_registeredPluginList (optimistic s), evs)
    /\ peekCalls evs = filter enabled g_registeredPluginList
    /\ (onRun peekCommand hookKeepsResponse g_registeredPluginList (optimistic s) ->
        response (command (afterPeekHooks g_registeredPluginList (optimistic s)))
        = response (set_response_methodLine (command s) "200 OK")).
Proof.
  intros Hdecline. eexists.
  rewrite peekCommand_eq, peekTry_eq, (peekLoop_declining_run _ _ Hdecline).
  split; [reflexivity|]. split.
  - split_calls. rewrite peekCalls_map. now rewrite app_nil_r.
  - intros Hframe. now rewrite (afterPeekHooks_response _ _ Hframe).
Qed.

(** C5. An error thrown by a plugin while the peek loop runs does not
    leave [_peekCommand]: the call returns [true], the status line of the
    response is the thrown text, and the last thing the call did was to
    log the error at the severity the classifier gives that text. *)
Theorem peek_error_caught_and_answered (s : State) e s1 ev1 :
  peekLoop g_registeredPluginList (optimistic s) = (Threw e, s1, ev1) ->
  exists s2 evs,
    _peekCommand SComposeJSONObject serialize g_registeredPluginList s
    = (Ok true, s2, evs)
    /\ methodLine (response (command s2)) = e
    /\ s2 = peekCaught s1 e
    /\ exists before,
        evs = (before
               ++ [EvLog (catchSeverity e)
                         (peekErrorMessage serialize (command s1) e)])%list.
Proof.
  intros H. eexists _, _. rewrite peekCommand_eq, peekTry_eq, H.
  split; [reflexivity|]. repeat split.
  exists (EvLog LOG_DEBUG ("Peeking at '" ++ methodLine (request (command s)) ++ "'")
          :: ev1). reflexivity.
Qed.

(** ** Encoding the content *)

(** C8, as amended. In both phases, when the phase succeeds with a
    non-empty content table whose JSON encoding differs from the body the
    response has, the body is replaced with the encoding; the call warns
    of the replacement when the body it replaces was not empty, and warns
    of nothing when it was. *)
Theorem content_replaced_warning_when_body_not_empty (s1 : State) :
  jsonContent (command s1) <> [] ->
  SComposeJSONObject (jsonContent (command s1)) <> content (response (command s1)) ->
  (forall s ev1,
      peekLoop g_registeredPluginList (optimistic s) = (Ok true, s1, ev1) ->
      exists s2 evs,
        _peekCommand SComposeJSONObject serialize g_registeredPluginList s
        = (Ok true, s2, evs)
        /\ content (response (command s2)) = SComposeJSONObject (jsonContent (command s1))
        /\ warnings evs
           = if sempty (content (response (command s1))) then []
             else ["Replacing existing response content in "
                   ++ methodLine (request (command s1))])
  /\ (forall s ev1,
        (beginStep ;; dispatchStep g_registeredPluginList ;; commitStep) s
        = (Ok tt, s1, ev1) ->
        exists s2 evs,
          _processCommand SComposeJSONObject serialize g_registeredPluginList s
          = (Ok tt, s2, evs)
          /\ content (response (command s2)) = SComposeJSONObject (jsonContent (command s1))
          /\ warnings evs
             = if sempty (content (response (command s1))) then []
               else ["Replacing existing response content in "
                     ++ methodLine (request (command s1))]).
Proof.
  intros Hne Hdiff.
  destruct (encodedCommand_replaced (command s1) Hne Hdiff) as [Hbody Hwarn].
  split; intros s ev1 H.
  - eexists _, _. rewrite peekCommand_eq, peekTry_eq, H.
    split; [reflexivity|]. split; [exact Hbody|].
    apply peekLoop_events, dispatchEvents_quiet in H. destruct H as (_ & _ & Hw).
    rewrite warnings_cons, warnings_app, Hw.
    rewrite (warnings_cons (EvLog LOG_INFO _) (encodeWarning _ _)), Hwarn.
    reflexivity.
  - eexists _, _. rewrite processCommand_eq, processTry_split_respond.
    unfold bind at 1. rewrite H, respondStep_eq.
    split; [reflexivity|]. split; [exact Hbody|].
    apply beginDispatchCommit_ok_no_warning in H.
    rewrite warnings_cons, warnings_app, H.
    rewrite (warnings_cons (EvLog LOG_INFO _) (encodeWarning _ _)), Hwarn.
    reflexivity.
Qed.

(** *** The two dispatch loops of the process phase *)

Lemma upgradeCalls_map (plugins : list BedrockPlugin) :
  upgradeCalls (map EvUpgradeDatabase plugins) = plugins.
Proof. induction plugins as [|p rest IH]; simpl; congruence. Qed.

Lemma processCalls_map (plugins : list BedrockPlugin) :
  processCalls (map EvProcessCommand plugins) = plugins.
Proof. induction plugins as [|p rest IH]; simpl; congruence. Qed.

(** Whatever its hooks do, the upgrade loop leaves the command alone,
    calls no process hook, calls the upgrade hooks of enabled plugins in
    registration order without skipping one, and throws only what a hook
    threw. *)
Lemma upgradeLoop_inv (plugins : list BedrockPlugin) :
  forall s r s' evs,
    upgradeLoop plugins s = (r, s', evs) ->
    command s' = command s
    /\ processCalls evs = []
    /\ (exists notReached, filter enabled plugins = (upgradeCalls evs ++ notReached)%list)
    /\ (r = Ok tt -> upgradeCalls evs = filter enabled plugins)
    /\ (forall e, r = Threw e ->
                  exists p d, In p plugins /\ enabled p = true
                              /\ fst (upgradeDatabase p d) = Threw e).
Proof.
  induction plugins as [|p rest IH]; intros s r s' evs H; simpl in H.
  - inversion H; subst. repeat split; try reflexivity.
    + now exists [].
    + intros e He. discriminate He.
  - unfold bind in H. simpl filter. destruct (enabled p) eqn:Hen.
    + unfold call_upgradeDatabase in H.
      destruct (upgradeDatabase p (db s)) as [[[]|e0] d] eqn:Hup.
      * destruct (upgradeLoop rest (mkState d (command s))) as [[r1 s1] ev1] eqn:E.
        inversion H; subst.
        destruct (IH _ _ _ _ E) as (Hc & Hp & (nr & Hpre) & Hall & Hthrow).
        simpl. repeat split; try assumption.
        -- exists nr. now rewrite Hpre.
        -- intros Hr. now rewrite (Hall Hr).
        -- intros e He. destruct (Hthrow e He) as (q & dq & Hq & Hqe & Hqt).
           exists q, dq. split; [now right|now split].
      * inversion H; subst. simpl. repeat split.
        -- now exists (filter enabled rest).
        -- intros Hr. discriminate Hr.
        -- intros e He. inversion He; subst. exists p, (db s).
           split; [now left|]. split; [assumption|]. now rewrite Hup.
    + simpl in H. destruct (upgradeLoop rest s) as [[r1 s1] ev1] eqn:E.
      inversion H; subst.
      destruct (IH _ _ _ _ E) as (Hc & Hp & Hpre & Hall & Hthrow).
      simpl. repeat split; try assumption.
      intros e He. destruct (Hthrow e He) as (q & dq & Hq & Hqe & Hqt).
      exists q, dq. split; [now right|now split].
Qed.


(** The dispatch step on the upgrade command, and on any other. *)
Lemma dispatchStep_upgrade (s : State) :
  SIEquals (methodLine (request (command s))) "UpgradeDatabase" = true ->
  dispatchStep g_registeredPluginList s =
  match upgradeLoop g_registeredPluginList s with
  | (Ok _, s1, ev1) =>
      (Ok tt, s1,
       EvLog LOG_INFO "Upgrading database"
       :: (ev1 ++ [EvLog LOG_INFO "Finished upgrading database"])%list)
  | (Threw e, s1, ev1) => (Threw e, s1, EvLog LOG_INFO "Upgrading database" :: ev1)
  end.
Proof.
  intros H. unfold dispatchStep, bind. simpl. rewrite H. simpl.
  now destruct (upgradeLoop g_registeredPluginList s) as [[[[]|e] s1] ev1].
Qed.

Lemma dispatchStep_other (s : State) :
  SIEquals (methodLine (request (command s))) "UpgradeDatabase" = false ->
  dispatchStep g_registeredPluginList s =
  match processLoop g_registeredPluginList s with
  | (Ok true, s1, ev1) => (Ok tt, s1, ev1)
  | (Ok false, s1, ev1) =>
      (Threw "430 Unrecognized command", s1,
       (ev1 ++ [EvLog LOG_WARNING
                  ("Command '" ++ methodLine (request (command s1))
                   ++ "' does not exist.")])%list)
  | (Threw e, s1, ev1) => (Threw e, s1, ev1)
  end.
Proof.
  intros H. unfold dispatchStep, bind. simpl. rewrite H.
  destruct (processLoop g_registeredPluginList s) as [[[[|]|e] s1] ev1]; simpl;
    try reflexivity.
  now rewrite app_nil_r.
Qed.

(** The try block once the transaction is begun. *)
Lemma processTry_begun (s : State) :
  beginOk (db s) = true ->
  processTry SComposeJSONObject g_registeredPluginList s =
  match dispatchStep g_registeredPluginList (mkState (begun (db s)) (command s)) with
  | (Ok _, s1, ev1) =>
      match (commitStep ;; respondStep SComposeJSONObject) s1 with
      | (r, s2, ev2) => (r, s2, EvBeginTransaction :: (ev1 ++ ev2)%list)
      end
  | (Threw e, s1, ev1) => (Threw e, s1, EvBeginTransaction :: ev1)
  end.
Proof.
  intros H. unfold processTry. unfold bind at 1. rewrite beginStep_eq, H.
  unfold bind at 1.
  destruct (dispatchStep g_registeredPluginList _) as [[[[]|e] s1] ev1]; [|reflexivity].
  now destruct ((commitStep ;; respondStep SComposeJSONObject) s1) as [[r s2] ev2].
Qed.

(** Committing and responding call no plugin hook and leave the status
    line as it is, unless [prepare] fails. *)
Lemma commit_and_respond_inv (s : State) r s2 ev2 :
  (commitStep ;; respondStep SComposeJSONObject) s = (r, s2, ev2) ->
  processCalls ev2 = [] /\ upgradeCalls ev2 = []
  /\ (r = Ok tt -> methodLine (response (command s2)) = methodLine (response (command s)))
  /\ (forall e, r = Threw e ->
                e = "501 Failed to prepare transaction" /\ command s2 = command s).
Proof.
  rewrite commit_and_respond_eq.
  destruct (encodeWarning_quiet (command s)) as (_ & _ & Wp & Wu).
  destruct (encodedCommand_methodLine (command s)) as [Hm _].
  destruct (sempty (uncommittedQuery (db s))); [|destruct (prepareOk (db s))];
    intros H; inversion H; subst; simpl;
    (split; [assumption || reflexivity|split; [assumption || reflexivity|split]]).
  - intros _. exact Hm.
  - intros e He. discriminate He.
  - intros _. exact Hm.
  - intros e He. discriminate He.
  - intros Habs. discriminate Habs.
  - intros e He. inversion He. now split.
Qed.

(** When every enabled plugin declines along the run, the process loop
    calls each of them once, in order, and says [false]. *)
Lemma processLoop_declining_run (plugins : list BedrockPlugin) :
  forall s,
    onRun processCommand hookDeclines plugins s ->
    exists s',
      processLoop plugins s
      = (Ok false, s', map EvProcessCommand (filter enabled plugins)).
Proof.
  induction plugins as [|p rest IH]; intros s Hrun; simpl; [now eexists|].
  simpl in Hrun. destruct (enabled p) eqn:Hen; [|now apply IH].
  destruct Hrun as [Hp Hrest]. unfold hookDeclines in Hp.
  unfold bind, call_processCommand.
  destruct (processCommand p (db s) (command s)) as [[r d] c]. simpl in Hp. subst r.
  destruct (IH _ Hrest) as (s' & ->). now eexists.
Qed.


(** ** The process phase: dispatch *)


(** C7, as amended. For a command that is not "UpgradeDatabase" in any
    letter case, once the transaction is begun, when every enabled
    plugin, asked in turn on this command, declines: each of their
    process hooks has been called once, the status line of the response is
    "430 Unrecognized command", [rollback] has been called exactly once,
    [prepare] never, and the database is outside any transaction. *)
Theorem unclaimed_command_unrecognized (s : State) :
  beginOk (db s) = true ->
  SIEquals (methodLine (request (command s))) "UpgradeDatabase" = false ->
  onRun processCommand hookDeclines g_registeredPluginList
        (mkState (begun (db s)) (command s)) ->
  exists s2 evs,
    _processCommand SComposeJSONObject serialize g_registeredPluginList s
    = (Ok tt, s2, evs)
    /\ methodLine (response (command s2)) = "430 Unrecognized command"
    /\ rollbacks evs = 1
    /\ prepares evs = 0
    /\ insideTransaction (db s2) = false
    /\ processCalls evs = filter enabled g_registeredPluginList.
Proof.
  intros Hbegin Hother Hdecline.
  rewrite processCommand_eq, (processTry_begun _ Hbegin).
  rewrite dispatchStep_other by exact Hother.
  destruct (processLoop_declining_run _ _ Hdecline) as (s1 & Hloop).
  rewrite Hloop. eexists _, _. split; [reflexivity|].
  pose proof (processLoop_events _ _ _ _ _ Hloop) as Hev.
  apply dispatchEvents_quiet in Hev. destruct Hev as (Hr & Hp & _).
  split; [reflexivity|]. split; [split_events; lia|]. split; [split_events; lia|].
  split; [reflexivity|].
  split_calls. rewrite processCalls_map. now rewrite !app_nil_r.
Qed.


(** ** Cleaning a command *)

(** C9. [_cleanCommand] returns with no outbound request left in the
    command.  A request that has an owner makes one call, telling that
    owner to close the transaction; a request without an owner makes one
    log line of error severity instead; in both cases the reference is
    then cleared and nothing else in the state changes.  A command
    without a request is left as it is. *)
Theorem clean_releases_outbound_request (s : State) :
  exists s2 evs,
    _cleanCommand s = (Ok tt, s2, evs)
    /\ httpsRequest (command s2) = None
    /\ s2 = mkState (db s) (set_httpsRequest (command s) None)
    /\ (forall t manager,
          httpsRequest (command s) = Some t -> owner t = Some manager ->
          evs = [EvCloseTransaction manager t])
    /\ (forall t,
          httpsRequest (command s) = Some t -> owner t = None ->
          evs = [EvLog LOG_ERR
                   ("No owner for this https request " ++ methodLine (fullResponse t))])
    /\ (httpsRequest (command s) = None -> evs = []).
Proof.
  destruct s as [d [rq rs jc hr]]. unfold _cleanCommand, bind. simpl.
  destruct hr as [t|]; [destruct (owner t) as [manager|] eqn:Ho|]; simpl;
    eexists _, _; (split; [reflexivity|]); (split; [reflexivity|]);
    (split; [reflexivity|]); (split; [|split]).
  - intros t' m Ht Hm. inversion Ht; subst. congruence.
  - intros t' Ht Hn. inversion Ht; subst. congruence.
  - intros Habs. discriminate Habs.
  - intros t' m Ht Hm. inversion Ht; subst. congruence.
  - intros t' Ht Hn. inversion Ht; subst. reflexivity.
  - intros Habs. discriminate Habs.
  - intros t' m Ht Hm. discriminate Ht.
  - intros t' Ht Hn. discriminate Ht.
  - reflexivity.
Qed.

End Steps.

(** ** The pipeline on sample collaborators *)
Import Sample.


(** *** Matching the upgrade command *)

Lemma SIEquals_lowered (lhs rhs : string) :
  SIEquals lhs rhs = true <-> SToLower lhs = SToLower rhs.
Proof. unfold SIEquals. apply String.eqb_eq. Qed.

(** *** Severity of a caught error *)

(** Markers come first, in the order alert, warning, notice. *)
Lemma catchSeverity_alert_marker (e : string) :
  SContains e "_ALERT_" = true -> catchSeverity e = LOG_ALERT.
Proof. intros H. unfold catchSeverity. now rewrite H. Qed.

Lemma catchSeverity_warn_marker (e : string) :
  SContains e "_ALERT_" = false -> SContains e "_WARN_" = true ->
  catchSeverity e = LOG_WARNING.
Proof. intros Ha Hw. unfold catchSeverity. now rewrite Ha, Hw. Qed.

Lemma catchSeverity_hmmm_marker (e : string) :
  SContains e "_ALERT_" = false -> SContains e "_WARN_" = false ->
  SContains e "_HMMM_" = true -> catchSeverity e = LOG_NOTICE.
Proof. intros Ha Hw Hh. unfold catchSeverity. now rewrite Ha, Hw, Hh. Qed.

(** Without a marker the text alerts exactly when it starts with "50". *)
Lemma catchSeverity_no_marker (e : string) :
  SContains e "_ALERT_" = false -> SContains e "_WARN_" = false ->
  SContains e "_HMMM_" = false ->
  catchSeverity e = if SStartsWith e "50" then LOG_ALERT else LOG_INFO.
Proof. intros Ha Hw Hh. unfold catchSeverity. now rewrite Ha, Hw, Hh. Qed.

(** The chain and the rule of the specification agree wherever the test
    on "50" and the test on the range 500-599 agree. *)
Lemma catchSeverity_specSeverity (e : string) :
  SStartsWith e "50" = is5xx e -> catchSeverity e = specSeverity e.
Proof. intros H. unfold catchSeverity, specSeverity. now rewrite H. Qed.

(** C1. The code "530 Unexpected response" carries no marker and its
    numeric prefix, 530, lies between 500 and 599, so the rule of the
    specification makes it an alert; the chain of the catch blocks tests
    for the prefix "50" and logs it at informational severity, in the peek
    phase and in the process phase alike: no alert is logged. *)
Theorem status_530_logged_as_info :
  numericPrefix "530 Unexpected response" = Some 530
  /\ specSeverity "530 Unexpected response" = LOG_ALERT
  /\ catchSeverity "530 Unexpected response" = LOG_INFO
  /\ (exists s evs,
        peek [throwingPlugin "530 Unexpected response"] (start true true "Echo")
        = (Ok true, s, evs)
        /\ methodLine (response (command s)) = "530 Unexpected response"
        /\ loggedAt LOG_ALERT evs = []
        /\ loggedAt LOG_INFO evs
           = ["Error processing read-only command 'Echo' (530 Unexpected response), ignoring: Echo / "])
  /\ (exists s evs,
        process [throwingPlugin "530 Unexpected response"] (start true true "Echo")
        = (Ok tt, s, evs)
        /\ methodLine (response (command s)) = "530 Unexpected response"
        /\ loggedAt LOG_ALERT evs = []
        /\ loggedAt LOG_INFO evs
           = ["Error processing command 'Echo' (530 Unexpected response), ignoring: Echo / "]).
Proof.
  split; [reflexivity|]. split; [reflexivity|]. split; [reflexivity|].
  split; eexists _, _; (split; [reflexivity|]); repeat split.
Qed.

(** *** The process phase *)

(** A process hook throws "404_WARN_ Not Found": the status line is that
    text, the error is logged as a warning, the transaction is rolled
    back once. *)
Lemma process_error_caught_rolled_back_once_witness :
  processTry composeJSONObject [throwingPlugin "404_WARN_ Not Found"]
             (start true true "Echo")
  = (Threw "404_WARN_ Not Found",
     mkState (begun (idleDb true true)) (newCommand "Echo"),
     [EvBeginTransaction; EvProcessCommand (throwingPlugin "404_WARN_ Not Found")])
  /\ exists s2 evs,
      process [throwingPlugin "404_WARN_ Not Found"] (start true true "Echo")
      = (Ok tt, s2, evs)
      /\ rollbacks evs = 1
      /\ insideTransaction (db s2) = false
      /\ methodLine (response (command s2)) = "404_WARN_ Not Found"
      /\ loggedAt (catchSeverity "404_WARN_ Not Found") evs <> []
      /\ exists before,
          evs = (before
                 ++ [EvRollback;
                     EvLog (catchSeverity "404_WARN_ Not Found")
                       (processErrorMessage serializeData
                          (command (mkState (begun (idleDb true true))
                                            (newCommand "Echo")))
                          "404_WARN_ Not Found")])%list.
Proof.
  split; [reflexivity|].
  apply (process_error_caught_rolled_back_once composeJSONObject serializeData
           [throwingPlugin "404_WARN_ Not Found"] (start true true "Echo")
           "404_WARN_ Not Found"
           (mkState (begun (idleDb true true)) (newCommand "Echo"))
           [EvBeginTransaction; EvProcessCommand (throwingPlugin "404_WARN_ Not Found")]).
  reflexivity.
Defined.

(** The writer claims "Write" and leaves a statement uncommitted, and the
    engine refuses to prepare. *)
Lemma process_commit_step_after_dispatch_witness :
  (beginStep ;; dispatchStep [writer]) (start true false "Write")
  = (Ok tt, written false,
     [EvBeginTransaction; EvProcessCommand writer;
      EvLog LOG_INFO "Plugin 'Answer' processed command 'Write'"])
  /\ exists s2 evs,
      _processCommand composeJSONObject serializeData [writer] (start true false "Write")
      = (Ok tt, s2, evs)
      /\ (uncommittedQuery (db (written false)) = EmptyString ->
          rollbacks evs = 1 /\ prepares evs = 0
          /\ insideTransaction (db s2) = false)
      /\ (uncommittedQuery (db (written false)) <> EmptyString ->
          prepares evs = 1
          /\ (prepareOk (db (written false)) = true -> rollbacks evs = 0)
          /\ (prepareOk (db (written false)) = false ->
              methodLine (response (command s2)) = "501 Failed to prepare transaction"
              /\ rollbacks evs = 1
              /\ insideTransaction (db s2) = false
              /\ In (EvLog LOG_ALERT
                       (processErrorMessage serializeData (command (written false))
                          "501 Failed to prepare transaction")) evs)).
Proof.
  split; [reflexivity|].
  apply (process_commit_step_after_dispatch composeJSONObject serializeData [writer]
           (start true false "Write") (written false)
           [EvBeginTransaction; EvProcessCommand writer;
            EvLog LOG_INFO "Plugin 'Answer' processed command 'Write'"]).
  reflexivity.
Defined.

(** *** The peek phase *)

(** C4 as stated fails: a peek hook that writes to the response body and
    then declines leaves its writing in the response, which then differs
    from the response received in more than the status line. *)
Lemma peek_unclaimed_keeps_hook_writes :
  (forall p, In p [scribblingPlugin] -> enabled p = true ->
             forall d c, fst (fst (peekCommand p d c)) = Ok false)
  /\ exists s evs,
      peek [scribblingPlugin] (start true true "Echo") = (Ok false, s, evs)
      /\ content (response (command s)) = "partial"
      /\ response (command s)
         <> response (set_response_methodLine (command (start true true "Echo")) "200 OK").
Proof.
  split.
  - intros p [<-|[]] _ d c. reflexivity.
  - eexists _, _. split; [reflexivity|]. split; [reflexivity|].
    intros H. discriminate H.
Qed.

(** A plugin that claims "Read" only and a disabled one, and the command
    "Echo". *)
Lemma peek_unclaimed_keeps_what_hooks_left_witness :
  onRun peekCommand hookDeclines
        [pickyPlugin "Read" [("id", "1")]; idlePlugin "Jobs" false]
        (optimistic (start true true "Echo"))
  /\ onRun peekCommand hookKeepsResponse
           [pickyPlugin "Read" [("id", "1")]; idlePlugin "Jobs" false]
           (optimistic (start true true "Echo"))
  /\ exists evs,
      _peekCommand composeJSONObject serializeData
                   [pickyPlugin "Read" [("id", "1")]; idlePlugin "Jobs" false]
                   (start true true "Echo")
      = (Ok false,
         afterPeekHooks [pickyPlugin "Read" [("id", "1")]; idlePlugin "Jobs" false]
                        (optimistic (start true true "Echo")), evs)
      /\ peekCalls evs
         = filter enabled [pickyPlugin "Read" [("id", "1")]; idlePlugin "Jobs" false]
      /\ response (command (afterPeekHooks
                              [pickyPlugin "Read" [("id", "1")]; idlePlugin "Jobs" false]
                              (optimistic (start true true "Echo"))))
         = response (set_response_methodLine (command (start true true "Echo")) "200 OK").
Proof.
  assert (Hdecline :
            onRun peekCommand hookDeclines
                  [pickyPlugin "Read" [("id", "1")]; idlePlugin "Jobs" false]
                  (optimistic (start true true "Echo")))
    by (simpl; split; reflexivity || exact I).
  assert (Hkeep :
            onRun peekCommand hookKeepsResponse
                  [pickyPlugin "Read" [("id", "1")]; idlePlugin "Jobs" false]
                  (optimistic (start true true "Echo")))
    by (simpl; split; reflexivity || exact I).
  split; [exact Hdecline|]. split; [exact Hkeep|].
  destruct (peek_unclaimed_keeps_what_hooks_left composeJSONObject serializeData
              [pickyPlugin "Read" [("id", "1")]; idlePlugin "Jobs" false]
              (start true true "Echo") Hdecline) as (evs & Hrun & Hcalls & Hframe).
  exists evs. split; [exact Hrun|]. split; [exact Hcalls|exact (Hframe Hkeep)].
Defined.

(** A plugin throws "402 Missing query" from its peek hook. *)
Lemma peek_error_caught_and_answered_witness :
  peekLoop [idlePlugin "DB" true; throwingPlugin "402 Missing query"]
           (optimistic (start true true "Query"))
  = (Threw "402 Missing query", optimistic (start true true "Query"),
     [EvPeekCommand (idlePlugin "DB" true);
      EvPeekCommand (throwingPlugin "402 Missing query")])
  /\ exists s2 evs,
      _peekCommand composeJSONObject serializeData
                   [idlePlugin "DB" true; throwingPlugin "402 Missing query"]
                   (start true true "Query")
      = (Ok true, s2, evs)
      /\ methodLine (response (command s2)) = "402 Missing query"
      /\ s2 = peekCaught (optimistic (start true true "Query")) "402 Missing query"
      /\ exists before,
          evs = (before
                 ++ [EvLog (catchSeverity "402 Missing query")
                       (peekErrorMessage serializeData
                          (command (optimistic (start true true "Query")))
                          "402 Missing query")])%list.
Proof.
  split; [reflexivity|].
  apply (peek_error_caught_and_answered composeJSONObject serializeData
           [idlePlugin "DB" true; throwingPlugin "402 Missing query"]
           (start true true "Query") "402 Missing query"
           (optimistic (start true true "Query"))
           [EvPeekCommand (idlePlugin "DB" true);
            EvPeekCommand (throwingPlugin "402 Missing query")]).
  reflexivity.
Defined.

(** *** Dispatch in the process phase *)



(** C7 as stated fails in two ways.  When the transaction cannot be begun,
    a command no plugin claims is answered "501 Failed to begin
    transaction"; and "upgradedatabase", which is not the string
    "UpgradeDatabase", takes the upgrade branch, where nothing is
    unrecognized. *)
Lemma unclaimed_command_not_always_430 :
  (forall p, In p [idlePlugin "DB" true] -> enabled p = true ->
             forall d c, fst (fst (processCommand p d c)) = Ok false)
  /\ (exists s evs,
        process [idlePlugin "DB" true] (start false true "Bogus") = (Ok tt, s, evs)
        /\ methodLine (response (command s)) = "501 Failed to begin transaction"
        /\ processCalls evs = [])
  /\ (exists s evs,
        "upgradedatabase" <> "UpgradeDatabase"
        /\ process [idlePlugin "DB" true] (optimistic (start true true "upgradedatabase"))
           = (Ok tt, s, evs)
        /\ methodLine (response (command s)) = "200 OK"
        /\ processCalls evs = []).
Proof.
  split; [|split].
  - intros p [<-|[]] _ d c. reflexivity.
  - eexists _, _. split; [reflexivity|]. now split.
  - eexists _, _. split; [intros H; discriminate H|].
    split; [reflexivity|]. now split.
Qed.

(** The command "Bogus", a transaction that begins, a plugin that claims
    "Read" only and a disabled one. *)
Lemma unclaimed_command_unrecognized_witness :
  beginOk (db (start true true "Bogus")) = true
  /\ SIEquals (methodLine (request (command (start true true "Bogus"))))
              "UpgradeDatabase" = false
  /\ onRun processCommand hookDeclines
           [pickyPlugin "Read" [("id", "1")]; idlePlugin "Jobs" false]
           (mkState (begun (db (start true true "Bogus")))
                    (command (start true true "Bogus")))
  /\ exists s2 evs,
      _processCommand composeJSONObject serializeData
                      [pickyPlugin "Read" [("id", "1")]; idlePlugin "Jobs" false]
                      (start true true "Bogus")
      = (Ok tt, s2, evs)
      /\ methodLine (response (command s2)) = "430 Unrecognized command"
      /\ rollbacks evs = 1
      /\ prepares evs = 0
      /\ insideTransaction (db s2) = false
      /\ processCalls evs
         = filter enabled [pickyPlugin "Read" [("id", "1")]; idlePlugin "Jobs" false].
Proof.
  assert (Hdecline :
            onRun processCommand hookDeclines
                  [pickyPlugin "Read" [("id", "1")]; idlePlugin "Jobs" false]
                  (mkState (begun (db (start true true "Bogus")))
                           (command (start true true "Bogus"))))
    by (simpl; split; reflexivity || exact I).
  split; [reflexivity|]. split; [reflexivity|]. split; [exact Hdecline|].
  exact (unclaimed_command_unrecognized composeJSONObject serializeData
           [pickyPlugin "Read" [("id", "1")]; idlePlugin "Jobs" false]
           (start true true "Bogus") eq_refl eq_refl Hdecline).
Defined.



(** *** Encoding the content *)

(** C8 as stated fails: with an empty body in the response, a non-empty
    content table is encoded into the body, which the encoding differs
    from, and no warning is emitted, in the peek phase and in the process
    phase alike. *)
Lemma content_replaced_without_warning :
  (exists s evs,
      peek [reader] (start true true "Read") = (Ok true, s, evs)
      /\ jsonContent (command s) <> []
      /\ composeJSONObject (jsonContent (command s))
         <> content (response (command (start true true "Read")))
      /\ content (response (command s)) = composeJSONObject (jsonContent (command s))
      /\ warnings evs = [])
  /\ (exists s evs,
        process [reader] (start true true "Read") = (Ok tt, s, evs)
        /\ jsonContent (command s) <> []
        /\ composeJSONObject (jsonContent (command s))
           <> content (response (command (start true true "Read")))
        /\ content (response (command s)) = composeJSONObject (jsonContent (command s))
        /\ warnings evs = []).
Proof.
  split; eexists _, _; (split; [reflexivity|]);
    (split; [intros H; discriminate H|]); (split; [intros H; discriminate H|]);
    now split.
Qed.

(** The reader answers a command whose response already has the body
    "stale", in the peek phase and in the process phase. *)
Lemma content_replaced_warning_when_body_not_empty_witness :
  jsonContent (command (readPeeked "stale")) <> []
  /\ composeJSONObject (jsonContent (command (readPeeked "stale")))
     <> content (response (command (readPeeked "stale")))
  /\ peekLoop [reader] (optimistic (mkState (idleDb true true) (answeredCommand "Read" "stale")))
     = (Ok true, readPeeked "stale",
        [EvPeekCommand reader; EvLog LOG_INFO "Plugin 'Answer' peeked command 'Read'"])
  /\ (beginStep ;; dispatchStep [reader] ;; commitStep)
       (mkState (idleDb true true) (answeredCommand "Read" "stale"))
     = (Ok tt, readProcessed "stale",
        [EvBeginTransaction; EvProcessCommand reader;
         EvLog LOG_INFO "Plugin 'Answer' processed command 'Read'"; EvRollback])
  /\ (exists s2 evs,
        _peekCommand composeJSONObject serializeData [reader]
                     (mkState (idleDb true true) (answeredCommand "Read" "stale"))
        = (Ok true, s2, evs)
        /\ content (response (command s2))
           = composeJSONObject (jsonContent (command (readPeeked "stale")))
        /\ warnings evs
           = if sempty (content (response (command (readPeeked "stale")))) then []
             else ["Replacing existing response content in "
                   ++ methodLine (request (command (readPeeked "stale")))])
  /\ (exists s2 evs,
        _processCommand composeJSONObject serializeData [reader]
                        (mkState (idleDb true true) (answeredCommand "Read" "stale"))
        = (Ok tt, s2, evs)
        /\ content (response (command s2))
           = composeJSONObject (jsonContent (command (readPeeked "stale")))
        /\ warnings evs
           = if sempty (content (response (command (readPeeked "stale")))) then []
             else ["Replacing existing response content in "
                   ++ methodLine (request (command (readPeeked "stale")))]).
Proof.
  assert (Hne : jsonContent (command (readPeeked "stale")) <> [])
    by (intros H; discriminate H).
  assert (Hdiff : composeJSONObject (jsonContent (command (readPeeked "stale")))
                  <> content (response (command (readPeeked "stale"))))
    by (intros H; discriminate H).
  split; [exact Hne|]. split; [exact Hdiff|].
  split; [reflexivity|]. split; [reflexivity|].
  destruct (content_replaced_warning_when_body_not_empty composeJSONObject
              serializeData [reader] (readPeeked "stale") Hne Hdiff) as [Hpeek Hprocess].
  split.
  - apply (Hpeek (mkState (idleDb true true) (answeredCommand "Read" "stale"))
                 [EvPeekCommand reader;
                  EvLog LOG_INFO "Plugin 'Answer' peeked command 'Read'"]).
    reflexivity.
  - apply (Hprocess (mkState (idleDb true true) (answeredCommand "Read" "stale"))
                    [EvBeginTransaction; EvProcessCommand reader;
                     EvLog LOG_INFO "Plugin 'Answer' processed command 'Read'";
                     EvRollback]).
    reflexivity.
Defined.

(** *** Cleaning a command *)

(** A command whose outbound request is owned by the manager "stripe". *)
Lemma clean_releases_outbound_request_witness :
  httpsRequest (command (mkState (idleDb true true) (waitingCommand (Some "stripe"))))
  = Some (pendingRequest (Some "stripe"))
  /\ owner (pendingRequest (Some "stripe")) = Some "stripe"
  /\ exists s2 evs,
      _cleanCommand (mkState (idleDb true true) (waitingCommand (Some "stripe")))
      = (Ok tt, s2, evs)
      /\ httpsRequest (command s2) = None
      /\ evs = [EvCloseTransaction "stripe" (pendingRequest (Some "stripe"))].
Proof.
  split; [reflexivity|]. split; [reflexivity|].
  destruct (clean_releases_outbound_request
              (mkState (idleDb true true) (waitingCommand (Some "stripe"))))
    as (s2 & evs & Hrun & Hnone & _ & Howned & _).
  exists s2, evs. split; [exact Hrun|]. split; [exact Hnone|].
  exact (Howned (pendingRequest (Some "stripe")) "stripe" eq_refl eq_refl).
Defined.

(** ** More on the plugin loops and on what a call does *)

Lemma begins_app (a b : list Event) : begins (a ++ b) = begins a + begins b.
Proof. unfold begins. now rewrite filter_app, length_app. Qed.

Lemma begins_cons (ev : Event) (evs : list Event) :
  begins (ev :: evs) = (if isBegin ev then 1 else 0) + begins evs.
Proof. unfold begins. simpl. now destruct (isBegin ev). Qed.

Lemma begins_nil : begins [] = 0.
Proof. reflexivity. Qed.

Ltac count_calls :=
  repeat first
    [ rewrite rollbacks_app | rewrite rollbacks_cons | rewrite rollbacks_nil
    | rewrite prepares_app | rewrite prepares_cons | rewrite prepares_nil
    | rewrite begins_app | rewrite begins_cons | rewrite begins_nil ];
  cbn [isRollback isPrepare isBegin].

Lemma dispatchEvents_no_begin (evs : list Event) :
  forallb isDispatchEvent evs = true -> begins evs = 0.
Proof.
  induction evs as [|ev evs IH]; simpl; [reflexivity|].
  intros H. apply andb_true_iff in H. destruct H as [Hev Hevs].
  rewrite begins_cons, (IH Hevs).
  destruct ev as [sev msg| | | | | | |]; try discriminate Hev; reflexivity.
Qed.

(** The peek loop calls peek hooks only, those of enabled plugins, in
    registration order from the first on; when it says [false] it has
    called them all. *)
Lemma peekLoop_inv (plugins : list BedrockPlugin) :
  forall s r s' evs,
    peekLoop plugins s = (r, s', evs) ->
    processCalls evs = [] /\ upgradeCalls evs = []
    /\ (exists notReached, filter enabled plugins = (peekCalls evs ++ notReached)%list)
    /\ (r = Ok false ->
        peekCalls evs = filter enabled plugins /\ s' = afterPeekHooks plugins s).
Proof.
  unfold afterPeekHooks.
  induction plugins as [|p rest IH]; intros s r s' evs H; simpl in H.
  - inversion H; subst. repeat split; try reflexivity. now exists [].
  - simpl filter. destruct (enabled p) eqn:Hen; [|exact (IH _ _ _ _ H)].
    unfold bind, call_peekCommand in H. simpl fold_left. unfold afterPeekHook at 2.
    destruct (peekCommand p (db s) (command s)) as [[[b|e] d] c].
    + destruct b.
      * simpl in H. inversion H; subst. simpl.
        split; [reflexivity|]. split; [reflexivity|].
        split; [now exists (filter enabled rest)|]. intros Habs. discriminate Habs.
      * destruct (peekLoop rest (mkState d c)) as [[r1 s1] ev1] eqn:E.
        inversion H; subst.
        destruct (IH _ _ _ _ E) as (Hp & Hu & (nr & Hpre) & Hall). simpl.
        split; [assumption|]. split; [assumption|].
        split; [exists nr; now rewrite Hpre|].
        intros Hr. destruct (Hall Hr) as [Hcalls Hstate]. now rewrite Hcalls.
    + inversion H; subst. simpl.
      split; [reflexivity|]. split; [reflexivity|].
      split; [now exists (filter enabled rest)|]. intros Habs. discriminate Habs.
Qed.

Lemma processLoop_inv (plugins : list BedrockPlugin) :
  forall s r s' evs,
    processLoop plugins s = (r, s', evs) ->
    peekCalls evs = [] /\ upgradeCalls evs = []
    /\ (exists notReached, filter enabled plugins = (processCalls evs ++ notReached)%list)
    /\ (r = Ok false -> processCalls evs = filter enabled plugins).
Proof.
  induction plugins as [|p rest IH]; intros s r s' evs H; simpl in H.
  - inversion H; subst. repeat split; try reflexivity. now exists [].
  - simpl filter. destruct (enabled p) eqn:Hen; [|exact (IH _ _ _ _ H)].
    unfold bind, call_processCommand in H.
    destruct (processCommand p (db s) (command s)) as [[[b|e] d] c].
    + destruct b.
      * simpl in H. inversion H; subst. simpl.
        split; [reflexivity|]. split; [reflexivity|].
        split; [now exists (filter enabled rest)|]. intros Habs. discriminate Habs.
      * destruct (processLoop rest (mkState d c)) as [[r1 s1] ev1] eqn:E.
        inversion H; subst.
        destruct (IH _ _ _ _ E) as (Hp & Hu & (nr & Hpre) & Hall). simpl.
        split; [assumption|]. split; [assumption|].
        split; [exists nr; now rewrite Hpre|].
        intros Hr. now rewrite (Hall Hr).
    + inversion H; subst. simpl.
      split; [reflexivity|]. split; [reflexivity|].
      split; [now exists (filter enabled rest)|]. intros Habs. discriminate Habs.
Qed.

Lemma upgradeLoop_no_peek (plugins : list BedrockPlugin) :
  forall s r s' evs, upgradeLoop plugins s = (r, s', evs) -> peekCalls evs = [].
Proof.
  induction plugins as [|p rest IH]; intros s r s' evs H; simpl in H.
  - now inversion H.
  - unfold bind in H. destruct (enabled p).
    + unfold call_upgradeDatabase in H.
      destruct (upgradeDatabase p (db s)) as [[[]|e] d].
      * destruct (upgradeLoop rest (mkState d (command s))) as [[r1 s1] ev1] eqn:E.
        inversion H; subst. simpl. now apply IH in E.
      * now inversion H.
    + simpl in H. destruct (upgradeLoop rest s) as [[r1 s1] ev1] eqn:E.
      inversion H; subst. simpl. now apply IH in E.
Qed.

(** A loop that has ended otherwise than by saying [false] does not look
    at the plugins registered further on. *)
Lemma peekLoop_app (plugins after : list BedrockPlugin) :
  forall s r s' evs,
    peekLoop plugins s = (r, s', evs) -> r <> Ok false ->
    peekLoop (plugins ++ after) s = (r, s', evs).
Proof.
  induction plugins as [|p rest IH]; intros s r s' evs H Hr; simpl in H.
  - inversion H; subst. now elim Hr.
  - simpl. destruct (enabled p); [|now apply IH].
    unfold bind, call_peekCommand in *.
    destruct (peekCommand p (db s) (command s)) as [[[b|e] d] c]; [|exact H].
    destruct b; [exact H|].
    destruct (peekLoop rest (mkState d c)) as [[r1 s1] ev1] eqn:E.
    inversion H; subst. now rewrite (IH _ _ _ _ E Hr).
Qed.

Lemma processLoop_app (plugins after : list BedrockPlugin) :
  forall s r s' evs,
    processLoop plugins s = (r, s', evs) -> r <> Ok false ->
    processLoop (plugins ++ after) s = (r, s', evs).
Proof.
  induction plugins as [|p rest IH]; intros s r s' evs H Hr; simpl in H.
  - inversion H; subst. now elim Hr.
  - simpl. destruct (enabled p); [|now apply IH].
    unfold bind, call_processCommand in *.
    destruct (processCommand p (db s) (command s)) as [[[b|e] d] c]; [|exact H].
    destruct b; [exact H|].
    destruct (processLoop rest (mkState d c)) as [[r1 s1] ev1] eqn:E.
    inversion H; subst. now rewrite (IH _ _ _ _ E Hr).
Qed.

Section Coverage.

Variable SComposeJSONObject : STable -> string.
Variable serialize : SData -> string.
Variable g_registeredPluginList : list BedrockPlugin.

Lemma encodeWarning_calm (c : Command) :
  begins (encodeWarning SComposeJSONObject c) = 0
  /\ peekCalls (encodeWarning SComposeJSONObject c) = [].
Proof.
  unfold encodeWarning. destruct (tempty (jsonContent c)); [now split|].
  destruct (String.eqb _ _); [now split|].
  destruct (sempty _); now split.
Qed.

(** The dispatch step calls process hooks or upgrade hooks, never both,
    never a peek hook, and never begins a transaction. *)
Lemma dispatchStep_inv (s : State) r s' evs :
  dispatchStep g_registeredPluginList s = (r, s', evs) ->
  peekCalls evs = [] /\ begins evs = 0
  /\ (exists notReached,
        filter enabled g_registeredPluginList = (processCalls evs ++ notReached)%list)
  /\ (exists notReached,
        filter enabled g_registeredPluginList = (upgradeCalls evs ++ notReached)%list)
  /\ (processCalls evs = [] \/ upgradeCalls evs = []).
Proof.
  destruct (SIEquals (methodLine (request (command s))) "UpgradeDatabase") eqn:Hup.
  - rewrite (dispatchStep_upgrade _ _ Hup).
    destruct (upgradeLoop g_registeredPluginList s) as [[r1 s1] ev1] eqn:E.
    destruct (upgradeLoop_inv _ _ _ _ _ E) as (_ & Hpc & (nr & Hpre) & _).
    pose proof (upgradeLoop_no_peek _ _ _ _ _ E) as Hpk.
    pose proof (dispatchEvents_no_begin _ (upgradeLoop_events _ _ _ _ _ E)) as Hb.
    destruct r1 as [[]|e]; intros H; inversion H; subst;
      (split; [split_calls; now rewrite Hpk|]);
      (split; [count_calls; lia|]);
      (split; [exists (filter enabled g_registeredPluginList); split_calls;
               now rewrite Hpc|]);
      (split; [exists nr; split_calls; now rewrite ?app_nil_r|]);
      left; split_calls; now rewrite Hpc.
  - rewrite (dispatchStep_other _ _ Hup).
    destruct (processLoop g_registeredPluginList s) as [[r1 s1] ev1] eqn:E.
    destruct (processLoop_inv _ _ _ _ _ E) as (Hpk & Huc & (nr & Hpre) & _).
    pose proof (dispatchEvents_no_begin _ (processLoop_events _ _ _ _ _ E)) as Hb.
    destruct r1 as [[|]|e]; intros H; inversion H; subst;
      (split; [split_calls; now rewrite ?Hpk|]);
      (split; [count_calls; lia|]);
      (split; [exists nr; split_calls; now rewrite ?app_nil_r|]);
      (split; [exists (filter enabled g_registeredPluginList); split_calls;
               now rewrite Huc|]);
      right; split_calls; now rewrite Huc.
Qed.

(** Committing and responding: no hook, no begin, and one rollback or one
    prepare, or both when the prepare fails. *)
Lemma commit_and_respond_calls (s : State) r s2 ev2 :
  (commitStep ;; respondStep SComposeJSONObject) s = (r, s2, ev2) ->
  peekCalls ev2 = [] /\ begins ev2 = 0
  /\ ((r = Ok tt /\ rollbacks ev2 = 1 /\ prepares ev2 = 0
       /\ insideTransaction (db s2) = false)
      \/ (r = Ok tt /\ rollbacks ev2 = 0 /\ prepares ev2 = 1 /\ db s2 = db s
          /\ prepareOk (db s) = true /\ uncommittedQuery (db s) <> EmptyString)
      \/ (r = Threw "501 Failed to prepare transaction"
          /\ rollbacks ev2 = 0 /\ prepares ev2 = 1)).
Proof.
  rewrite commit_and_respond_eq.
  destruct (encodeWarning_quiet SComposeJSONObject (command s)) as (Wr & Wp & _).
  destruct (encodeWarning_calm (command s)) as (Wb & Wpk).
  destruct (sempty (uncommittedQuery (db s))) eqn:Hq; [|destruct (prepareOk (db s)) eqn:Hok];
    intros H; inversion H; subst;
    (split; [split_calls; now rewrite ?Wpk|]); (split; [count_calls; lia|]).
  - left. repeat split; count_calls; lia.
  - right. left. repeat split; try (count_calls; lia).
    intros Hempty. rewrite Hempty in Hq. discriminate Hq.
  - right. right. repeat split.
Qed.

(** ** What the peek phase never does *)

(** X1. Whatever the plugins do, [_peekCommand] makes no call on the
    database itself: it neither begins, rolls back nor prepares a
    transaction, and it calls no process hook and no upgrade hook. *)
Theorem peek_leaves_transaction_alone (s : State) :
  let evs := snd (_peekCommand SComposeJSONObject serialize g_registeredPluginList s) in
  begins evs = 0 /\ rollbacks evs = 0 /\ prepares evs = 0
  /\ processCalls evs = [] /\ upgradeCalls evs = [].
Proof.
  rewrite peekCommand_eq, peekTry_eq.
  destruct (peekLoop g_registeredPluginList (optimistic s)) as [[r s1] ev1] eqn:E.
  pose proof (peekLoop_events _ _ _ _ _ E) as Hev.
  pose proof (dispatchEvents_no_begin _ Hev) as Hb.
  apply dispatchEvents_quiet in Hev. destruct Hev as (Hr & Hp & _).
  destruct (peekLoop_inv _ _ _ _ _ E) as (Hpc & Huc & _).
  destruct (encodeWarning_quiet SComposeJSONObject (command s1)) as (Wr & Wp & Wpc & Wuc).
  destruct (encodeWarning_calm (command s1)) as (Wb & _).
  destruct r as [[|]|e]; cbn [snd]; repeat split; try (count_calls; lia);
    split_calls; rewrite ?Hpc, ?Huc, ?Wpc, ?Wuc; reflexivity.
Qed.

(** ** Which hooks are called *)

(** X2. The peek hooks [_peekCommand] calls are, in call order, an initial
    stretch of the enabled plugins of the registry in registration order:
    a disabled plugin is never asked, no plugin is asked out of turn or
    again, and nobody is asked after the plugin that ends the loop. *)
Theorem peek_asks_enabled_plugins_in_order (s : State) :
  exists notReached,
    filter enabled g_registeredPluginList
    = (peekCalls (snd (_peekCommand SComposeJSONObject serialize
                                    g_registeredPluginList s))
       ++ notReached)%list.
Proof.
  rewrite peekCommand_eq, peekTry_eq.
  destruct (peekLoop g_registeredPluginList (optimistic s)) as [[r s1] ev1] eqn:E.
  destruct (peekLoop_inv _ _ _ _ _ E) as (_ & _ & (nr & Hpre) & _).
  destruct (encodeWarning_calm (command s1)) as (_ & Wpk).
  exists nr. destruct r as [[|]|e]; cbn [snd]; split_calls;
    rewrite ?Wpk, ?app_nil_r; exact Hpre.
Qed.

(** X3. In [_processCommand] no peek hook is called; the process hooks
    called and the upgrade hooks called are each an initial stretch of the
    enabled plugins in registration order, and a call never mixes the two
    kinds. *)
Theorem process_asks_enabled_plugins_in_order (s : State) :
  let evs := snd (_processCommand SComposeJSONObject serialize
                                  g_registeredPluginList s) in
  peekCalls evs = []
  /\ (exists notReached,
        filter enabled g_registeredPluginList = (processCalls evs ++ notReached)%list)
  /\ (exists notReached,
        filter enabled g_registeredPluginList = (upgradeCalls evs ++ notReached)%list)
  /\ (processCalls evs = [] \/ upgradeCalls evs = []).
Proof.
  rewrite processCommand_eq. destruct (beginOk (db s)) eqn:Hbegin.
  - rewrite (processTry_begun _ _ _ Hbegin).
    destruct (dispatchStep g_registeredPluginList (mkState (begun (db s)) (command s)))
      as [[r1 s1] ev1] eqn:Hd.
    destruct (dispatchStep_inv _ _ _ _ Hd) as (Hpk & _ & (np & Hp) & (nu & Hu) & Hone).
    destruct r1 as [[]|e1].
    + destruct ((commitStep ;; respondStep SComposeJSONObject) s1) as [[r s2] ev2] eqn:Hc.
      destruct (commit_and_respond_inv _ _ _ _ _ Hc) as (Hp2 & Hu2 & _).
      destruct (commit_and_respond_calls _ _ _ _ Hc) as (Hpk2 & _).
      destruct r as [[]|e]; cbn [snd];
        (split; [split_calls; now rewrite Hpk, Hpk2|]);
        (split; [exists np; split_calls; now rewrite Hp2, ?app_nil_r|]);
        (split; [exists nu; split_calls; now rewrite Hu2, ?app_nil_r|]);
        (destruct Hone as [Hone|Hone]; [left|right]; split_calls;
         now rewrite Hone, ?Hp2, ?Hu2).
    + cbn [snd].
      split; [split_calls; now rewrite Hpk|].
      split; [exists np; split_calls; now rewrite ?app_nil_r|].
      split; [exists nu; split_calls; now rewrite ?app_nil_r|].
      destruct Hone as [Hone|Hone]; [left|right]; split_calls; now rewrite Hone.
  - rewrite (processTry_begin_fails _ _ _ Hbegin). cbn [snd].
    split; [reflexivity|].
    split; [now exists (filter enabled g_registeredPluginList)|].
    split; [now exists (filter enabled g_registeredPluginList)|]. now left.
Qed.

(** A peek loop that says [false] was declined by every enabled plugin,
    each asked on the state the ones before it left. *)
Lemma peekLoop_false_declined (plugins : list BedrockPlugin) :
  forall s s' evs,
    peekLoop plugins s = (Ok false, s', evs) ->
    onRun peekCommand hookDeclines plugins s.
Proof.
  induction plugins as [|p rest IH]; intros s s' evs H; simpl in H; simpl; [exact I|].
  destruct (enabled p); [|exact (IH _ _ _ H)].
  unfold bind, call_peekCommand in H. unfold hookDeclines.
  destruct (peekCommand p (db s) (command s)) as [[[b|e] d] c]; [|discriminate H].
  destruct b; [simpl in H; discriminate H|].
  destruct (peekLoop rest (mkState d c)) as [[r1 s1] ev1] eqn:E.
  inversion H; subst. split; [reflexivity|]. exact (IH _ _ _ E).
Qed.

(** X4. [_peekCommand] says [false] only when every enabled plugin has
    declined: the peek hook of each has been called, in registration
    order, on the state the ones before it left, and each returned
    [false]; the state is then the one these hooks made of the state with
    status line "200 OK", and no warning has been logged. *)
Theorem peek_false_only_after_all_declined (s s' : State) evs :
  _peekCommand SComposeJSONObject serialize g_registeredPluginList s
  = (Ok false, s', evs) ->
  onRun peekCommand hookDeclines g_registeredPluginList (optimistic s)
  /\ peekCalls evs = filter enabled g_registeredPluginList
  /\ s' = afterPeekHooks g_registeredPluginList (optimistic s)
  /\ warnings evs = [].
Proof.
  rewrite peekCommand_eq, peekTry_eq.
  destruct (peekLoop g_registeredPluginList (optimistic s)) as [[r s1] ev1] eqn:E.
  destruct (peekLoop_inv _ _ _ _ _ E) as (_ & _ & _ & Hall).
  pose proof (dispatchEvents_quiet _ (peekLoop_events _ _ _ _ _ E)) as (_ & _ & Hw).
  destruct r as [[|]|e]; intros H; inversion H; subst.
  destruct (Hall eq_refl) as [Hcalls Hstate].
  split; [exact (peekLoop_false_declined _ _ _ _ E)|].
  split; [split_calls; now rewrite Hcalls, app_nil_r|]. split; [exact Hstate|].
  rewrite warnings_cons, warnings_app, Hw. reflexivity.
Qed.

(** ** First answer wins *)

(** X5. Once the peek loop over a registry has ended with a claim or with
    an error, the plugins registered after it make no difference:
    [_peekCommand] gives the same value, state and events with any
    plugins appended to the registry. *)
Theorem peek_ignores_plugins_after_answer (after : list BedrockPlugin)
    (s s1 : State) r ev1 :
  peekLoop g_registeredPluginList (optimistic s) = (r, s1, ev1) ->
  r <> Ok false ->
  _peekCommand SComposeJSONObject serialize (g_registeredPluginList ++ after) s
  = _peekCommand SComposeJSONObject serialize g_registeredPluginList s.
Proof.
  intros H Hr. rewrite !peekCommand_eq, !peekTry_eq.
  now rewrite (peekLoop_app _ after _ _ _ _ H Hr), H.
Qed.

(** X6. The same for a command that is not the upgrade command: once the
    process loop over a registry ends with a claim or with an error on
    the state the begun transaction gives, [_processCommand] gives the
    same value, state and events with any plugins appended to the
    registry. *)
Theorem process_ignores_plugins_after_answer (after : list BedrockPlugin)
    (s s1 : State) r ev1 :
  SIEquals (methodLine (request (command s))) "UpgradeDatabase" = false ->
  processLoop g_registeredPluginList (mkState (begun (db s)) (command s))
  = (r, s1, ev1) ->
  r <> Ok false ->
  _processCommand SComposeJSONObject serialize (g_registeredPluginList ++ after) s
  = _processCommand SComposeJSONObject serialize g_registeredPluginList s.
Proof.
  intros Hother H Hr. rewrite !processCommand_eq.
  destruct (beginOk (db s)) eqn:Hbegin.
  - rewrite !(processTry_begun _ _ _ Hbegin).
    rewrite !dispatchStep_other by exact Hother.
    now rewrite (processLoop_app _ after _ _ _ _ H Hr), H.
  - now rewrite !(processTry_begin_fails _ _ _ Hbegin).
Qed.

(** ** A phase that succeeds *)

Lemma set_response_content_same (c : Command) :
  set_response_content c (content (response c)) = c.
Proof. destruct c as [rq [m h b] jc hr]. reflexivity. Qed.

(** The encoding block leaves the command with the encoding as its body
    when the table is not empty, and as it is otherwise. *)
Lemma encodedCommand_alt (c : Command) :
  encodedCommand SComposeJSONObject c
  = if tempty (jsonContent c) then c
    else set_response_content c (SComposeJSONObject (jsonContent c)).
Proof.
  unfold encodedCommand. destruct (tempty (jsonContent c)); [reflexivity|].
  destruct (String.eqb (content (response c)) (SComposeJSONObject (jsonContent c)))
    eqn:Heq; [|reflexivity].
  apply String.eqb_eq in Heq. rewrite <- Heq. symmetry. apply set_response_content_same.
Qed.

(** X7. When a plugin claims the command in the peek phase without an
    error, [_peekCommand] returns [true] and leaves the database, the
    request, the status line, the headers, the content table and the
    outbound request as that plugin left them: only the body can differ,
    and it is the JSON encoding of the content table whenever that table
    is not empty. *)
Theorem peek_success_keeps_plugin_answer (s s1 : State) ev1 :
  peekLoop g_registeredPluginList (optimistic s) = (Ok true, s1, ev1) ->
  exists evs,
    _peekCommand SComposeJSONObject serialize g_registeredPluginList s
    = (Ok true,
       mkState (db s1)
               (if tempty (jsonContent (command s1)) then command s1
                else set_response_content (command s1)
                       (SComposeJSONObject (jsonContent (command s1)))),
       evs).
Proof.
  intros H. eexists. rewrite peekCommand_eq, peekTry_eq, H, encodedCommand_alt.
  reflexivity.
Qed.

(** X8. When the transaction is begun, dispatch ends without an error and
    the uncommitted query is empty or [prepare] succeeds,
    [_processCommand] leaves the request, the status line, the headers,
    the content table and the outbound request as dispatch left them: the
    pipeline writes no status of its own.  The body is the JSON encoding
    of the content table whenever that table is not empty, and the
    database is rolled back when the query was empty and untouched
    otherwise. *)
Theorem process_success_keeps_plugin_answer (s s1 : State) ev1 :
  (beginStep ;; dispatchStep g_registeredPluginList) s = (Ok tt, s1, ev1) ->
  uncommittedQuery (db s1) = EmptyString \/ prepareOk (db s1) = true ->
  exists evs,
    _processCommand SComposeJSONObject serialize g_registeredPluginList s
    = (Ok tt,
       mkState (if sempty (uncommittedQuery (db s1)) then SQLite_rollback (db s1)
                else db s1)
               (if tempty (jsonContent (command s1)) then command s1
                else set_response_content (command s1)
                       (SComposeJSONObject (jsonContent (command s1)))),
       evs).
Proof.
  intros H Hgood. rewrite processCommand_eq, processTry_split.
  unfold bind at 1. rewrite H, commit_and_respond_eq, encodedCommand_alt.
  destruct (sempty (uncommittedQuery (db s1))) eqn:Hq; [now eexists|].
  destruct Hgood as [Hempty|Hok].
  - rewrite Hempty in Hq. discriminate Hq.
  - rewrite Hok. now eexists.
Qed.

(** X9. The encoding block is idempotent: run twice over a command it
    leaves the state and the log lines of a single run, so the second run
    replaces nothing and warns of nothing. *)
Theorem encodeContent_twice (s : State) :
  (encodeContent SComposeJSONObject ;; encodeContent SComposeJSONObject) s
  = encodeContent SComposeJSONObject s.
Proof.
  unfold bind. rewrite !encodeContent_eq. cbn [db command].
  assert (Hfix : encodedCommand SComposeJSONObject
                   (encodedCommand SComposeJSONObject (command s))
                 = encodedCommand SComposeJSONObject (command s)
                 /\ encodeWarning SComposeJSONObject
                      (encodedCommand SComposeJSONObject (command s)) = []).
  { unfold encodedCommand, encodeWarning.
    destruct (tempty (jsonContent (command s))) eqn:Ht.
    - now rewrite Ht.
    - destruct (String.eqb (content (response (command s)))
                  (SComposeJSONObject (jsonContent (command s)))) eqn:Heq.
      + now rewrite Ht, Heq.
      + cbn [set_response_content jsonContent response content].
        now rewrite Ht, String.eqb_refl. }
  destruct Hfix as [Hc Hw]. now rewrite Hc, Hw, app_nil_r.
Qed.

(** ** The transaction around the process phase *)

(** X10. When the transaction cannot be begun, [_processCommand] calls no
    plugin hook at all: it rolls back once, logs one alert naming the
    command and the error, and changes nothing of the command but the
    status line, which reads "501 Failed to begin transaction". *)
Theorem process_begin_failure (s : State) :
  beginOk (db s) = false ->
  _processCommand SComposeJSONObject serialize g_registeredPluginList s
  = (Ok tt,
     mkState (SQLite_rollback (db s))
             (set_response_methodLine (command s) "501 Failed to begin transaction"),
     [EvLog LOG_DEBUG ("Received '" ++ methodLine (request (command s)) ++ "'");
      EvBeginTransaction;
      EvRollback;
      EvLog LOG_ALERT
            (processErrorMessage serialize (command s)
                                 "501 Failed to begin transaction")]).
Proof.
  intros Hbegin. rewrite processCommand_eq, (processTry_begin_fails _ _ _ Hbegin).
  reflexivity.
Qed.

(** X11. Every call of [_processCommand] returns normally having called
    [beginTransaction] exactly once, and ends in one of two ways: rolled
    back, with exactly one [rollback], at most one [prepare] and the
    database outside any transaction; or prepared, with no [rollback] and
    exactly one [prepare], which succeeded on a query that is not
    empty. *)
Theorem process_brackets_transaction (s : State) :
  exists s2 evs,
    _processCommand SComposeJSONObject serialize g_registeredPluginList s
    = (Ok tt, s2, evs)
    /\ begins evs = 1
    /\ ((rollbacks evs = 1 /\ prepares evs <= 1 /\ insideTransaction (db s2) = false)
        \/ (rollbacks evs = 0 /\ prepares evs = 1
            /\ prepareOk (db s2) = true
            /\ uncommittedQuery (db s2) <> EmptyString)).
Proof.
  rewrite processCommand_eq. destruct (beginOk (db s)) eqn:Hbegin.
  - rewrite (processTry_begun _ _ _ Hbegin).
    destruct (dispatchStep g_registeredPluginList (mkState (begun (db s)) (command s)))
      as [[r1 s1] ev1] eqn:Hd.
    destruct (dispatchStep_no_db_call _ _ _ _ _ Hd) as [Hr Hp].
    destruct (dispatchStep_inv _ _ _ _ Hd) as (_ & Hb & _).
    destruct r1 as [[]|e1].
    + destruct ((commitStep ;; respondStep SComposeJSONObject) s1) as [[r s2] ev2] eqn:Hc.
      destruct (commit_and_respond_calls _ _ _ _ Hc)
        as (_ & Hb2 & [(-> & Hr2 & Hp2 & Hin)|[(-> & Hr2 & Hp2 & Hdb & Hok & Hq)
                                               |(-> & Hr2 & Hp2)]]).
      * eexists _, _. split; [reflexivity|]. split; [count_calls; lia|].
        left. repeat split; try (count_calls; lia). exact Hin.
      * eexists _, _. split; [reflexivity|]. split; [count_calls; lia|].
        right. rewrite Hdb. repeat split; try (count_calls; lia); assumption.
      * eexists _, _. split; [reflexivity|]. split; [count_calls; lia|].
        left. repeat split; count_calls; lia.
    + eexists _, _. split; [reflexivity|]. split; [count_calls; lia|].
      left. repeat split; count_calls; lia.
  - rewrite (processTry_begin_fails _ _ _ Hbegin). eexists _, _.
    split; [reflexivity|]. split; [reflexivity|]. left.
    repeat split; count_calls; lia.
Qed.

(** ** No error leaves the node *)

(** X12. Whatever the plugins throw and whatever the database answers,
    the four command hooks of the node return normally: no [const char*]
    error leaves [_peekCommand], [_processCommand], [_abortCommand] or
    [_cleanCommand]. *)
Theorem node_hooks_never_throw (s : State) :
  (exists b s' evs,
      _peekCommand SComposeJSONObject serialize g_registeredPluginList s
      = (Ok b, s', evs))
  /\ (exists s' evs,
        _processCommand SComposeJSONObject serialize g_registeredPluginList s
        = (Ok tt, s', evs))
  /\ (exists s' evs, _abortCommand s = (Ok tt, s', evs))
  /\ (exists s' evs, _cleanCommand s = (Ok tt, s', evs)).
Proof.
  split; [apply peekCommand_returns|]. split; [apply processCommand_returns|].
  split; [now eexists _, _|].
  unfold _cleanCommand, bind. simpl.
  destruct (httpsRequest (command s)) as [t|]; [|now eexists _, _].
  destruct (owner t); now eexists _, _.
Qed.

(** ** The upgrade command and the command it arrives in *)

Lemma encodedCommand_frame (c : Command) :
  request (encodedCommand SComposeJSONObject c) = request c
  /\ methodLine (response (encodedCommand SComposeJSONObject c)) = methodLine (response c)
  /\ nameValueMap (response (encodedCommand SComposeJSONObject c))
     = nameValueMap (response c)
  /\ jsonContent (encodedCommand SComposeJSONObject c) = jsonContent c
  /\ httpsRequest (encodedCommand SComposeJSONObject c) = httpsRequest c.
Proof.
  rewrite encodedCommand_alt. destruct (tempty (jsonContent c)); now repeat split.
Qed.

(** X13. A command matched as "UpgradeDatabase" comes back with its
    request, its headers, its content table and its outbound request as
    they were, whatever the upgrade hooks do; and its status line is as it
    was too, unless the call ended in the catch block, in which case it is
    the text of the error that was logged. *)
Theorem upgrade_leaves_command (s : State) :
  SIEquals (methodLine (request (command s))) "UpgradeDatabase" = true ->
  exists s2 evs,
    _processCommand SComposeJSONObject serialize g_registeredPluginList s
    = (Ok tt, s2, evs)
    /\ request (command s2) = request (command s)
    /\ nameValueMap (response (command s2)) = nameValueMap (response (command s))
    /\ jsonContent (command s2) = jsonContent (command s)
    /\ httpsRequest (command s2) = httpsRequest (command s)
    /\ (methodLine (response (command s2)) = methodLine (response (command s))
        \/ In (EvLog (catchSeverity (methodLine (response (command s2))))
                     (processErrorMessage serialize (command s)
                        (methodLine (response (command s2))))) evs).
Proof.
  intros Hup. rewrite processCommand_eq. destruct (beginOk (db s)) eqn:Hbegin.
  - rewrite (processTry_begun _ _ _ Hbegin). rewrite dispatchStep_upgrade by exact Hup.
    destruct (upgradeLoop g_registeredPluginList (mkState (begun (db s)) (command s)))
      as [[r1 s1] ev1] eqn:Hloop.
    destruct (upgradeLoop_inv _ _ _ _ _ Hloop) as (Hcmd & _). simpl in Hcmd.
    destruct r1 as [[]|e1].
    + rewrite commit_and_respond_eq.
      destruct (encodedCommand_frame (command s1)) as (Frq & Fm & Fh & Fj & Fr).
      destruct (sempty (uncommittedQuery (db s1))); [|destruct (prepareOk (db s1))];
        eexists _, _; (split; [reflexivity|]); cbn [command db]; rewrite <- Hcmd.
      * split; [exact Frq|]. split; [exact Fh|]. split; [exact Fj|].
        split; [exact Fr|]. left. exact Fm.
      * split; [exact Frq|]. split; [exact Fh|]. split; [exact Fj|].
        split; [exact Fr|]. left. exact Fm.
      * repeat split. right. right. right.
        apply in_or_app. right. right. now left.
    + eexists _, _. split; [reflexivity|]. rewrite <- Hcmd. repeat split.
      right. right. right. apply in_or_app. right. right. now left.
  - rewrite (processTry_begin_fails _ _ _ Hbegin). eexists _, _.
    split; [reflexivity|]. repeat split. right. right. right. right. now left.
Qed.

(** ** Cleaning and aborting *)

(** X14. Cleaning is idempotent: [_cleanCommand] run twice leaves the
    state and the events of a single run, so the owner of an outbound
    request is told to close it once and never again. *)
Theorem clean_twice (s : State) :
  (_cleanCommand ;; _cleanCommand) s = _cleanCommand s.
Proof.
  destruct s as [d [rq rs jc hr]]. unfold _cleanCommand, bind. simpl.
  destruct hr as [t|]; [|reflexivity].
  destruct (owner t); reflexivity.
Qed.

(** X15. [_abortCommand] writes the status line "500 ABORTED" and nothing
    else: it makes no call on the database, so a transaction that was
    open stays open, it logs nothing, it keeps the rest of the command,
    the outbound request included, and a second abort changes nothing. *)
Theorem abort_writes_status_only (s : State) :
  exists c2,
    _abortCommand s = (Ok tt, mkState (db s) c2, [])
    /\ methodLine (response c2) = "500 ABORTED"
    /\ set_response_methodLine c2 (methodLine (response (command s))) = command s
    /\ (_abortCommand ;; _abortCommand) s = _abortCommand s.
Proof.
  destruct s as [d [rq [m h b] jc hr]]. eexists. split; [reflexivity|].
  repeat split.
Qed.

(** ** Markers and codes in the catch blocks *)

Lemma prefix_app (needle rest : string) : String.prefix needle (needle ++ rest) = true.
Proof.
  induction needle as [|c needle IH]; simpl; [now destruct rest|].
  destruct (ascii_dec c c) as [_|Hne]; [exact IH|now elim Hne].
Qed.

Lemma SContains_middle (before needle rest : string) :
  SContains (before ++ needle ++ rest) needle = true.
Proof.
  induction before as [|c before IH].
  - change (EmptyString ++ needle ++ rest) with (needle ++ rest).
    destruct needle as [|c needle].
    + destruct rest; reflexivity.
    + cbn [append SContains]. fold (append needle rest).
      change (String c (needle ++ rest)) with (String c needle ++ rest).
      now rewrite prefix_app.
  - cbn [append SContains]. rewrite IH. apply orb_true_r.
Qed.

(** X16. A marker counts wherever it stands in the thrown text and
    whatever code the text carries: a text with "_ALERT_" in it is logged
    as an alert; one with "_WARN_" and no "_ALERT_" as a warning; one with
    "_HMMM_" and neither of the others as a notice. *)
Theorem marker_decides_severity (before rest : string) :
  catchSeverity (before ++ "_ALERT_" ++ rest) = LOG_ALERT
  /\ (SContains (before ++ "_WARN_" ++ rest) "_ALERT_" = false ->
      catchSeverity (before ++ "_WARN_" ++ rest) = LOG_WARNING)
  /\ (SContains (before ++ "_HMMM_" ++ rest) "_ALERT_" = false ->
      SContains (before ++ "_HMMM_" ++ rest) "_WARN_" = false ->
      catchSeverity (before ++ "_HMMM_" ++ rest) = LOG_NOTICE).
Proof.
  split; [|split].
  - unfold catchSeverity. now rewrite SContains_middle.
  - intros Ha. unfold catchSeverity. now rewrite Ha, SContains_middle.
  - intros Ha Hw. unfold catchSeverity. now rewrite Ha, Hw, SContains_middle.
Qed.

Lemma digitValue_bound (c : ascii) (v : nat) : digitValue c = Some v -> v <= 9.
Proof.
  unfold digitValue.
  destruct ((48 <=? nat_of_ascii c)%nat && (nat_of_ascii c <=? 57)%nat) eqn:H;
    [|discriminate].
  apply andb_true_iff in H. destruct H as [Hlo Hhi].
  apply Nat.leb_le in Hlo. apply Nat.leb_le in Hhi.
  intros Hv. inversion Hv. lia.
Qed.

Lemma SStartsWith_50 (a b : ascii) (rest : string) :
  SStartsWith (String a (String b rest)) "50" = (Ascii.eqb a "5" && Ascii.eqb b "0")%bool.
Proof.
  unfold SStartsWith. cbn [String.prefix].
  destruct (ascii_dec "5" a) as [<-|Ha].
  - destruct (ascii_dec "0" b) as [<-|Hb].
    + now destruct rest.
    + destruct (Ascii.eqb b "0") eqn:Heq; [|reflexivity].
      apply Ascii.eqb_eq in Heq. subst b. now elim Hb.
  - destruct (Ascii.eqb a "5") eqn:Heq; [|reflexivity].
    apply Ascii.eqb_eq in Heq. subst a. now elim Ha.
Qed.

(** X17. For a thrown text that starts with a three-digit code 5xy
    followed by a space and carries no marker, the numeric prefix lies
    between 500 and 599, and the catch blocks log it as an alert exactly
    when the second digit is 0: the codes 500 to 509 alert, the codes 510
    to 599 are logged at informational severity. *)
Theorem unmarked_5xx_alerts_only_below_510 (d2 d3 : ascii) (v2 v3 : nat)
    (rest : string) :
  digitValue d2 = Some v2 ->
  digitValue d3 = Some v3 ->
  SContains (String "5" (String d2 (String d3 (String " " rest)))) "_ALERT_" = false ->
  SContains (String "5" (String d2 (String d3 (String " " rest)))) "_WARN_" = false ->
  SContains (String "5" (String d2 (String d3 (String " " rest)))) "_HMMM_" = false ->
  numericPrefix (String "5" (String d2 (String d3 (String " " rest))))
  = Some (500 + 10 * v2 + v3)
  /\ is5xx (String "5" (String d2 (String d3 (String " " rest)))) = true
  /\ catchSeverity (String "5" (String d2 (String d3 (String " " rest))))
     = if Ascii.eqb d2 "0" then LOG_ALERT else LOG_INFO.
Proof.
  intros H2 H3 Ha Hw Hh.
  pose proof (digitValue_bound _ _ H2) as B2.
  pose proof (digitValue_bound _ _ H3) as B3.
  assert (Hprefix : numericPrefix (String "5" (String d2 (String d3 (String " " rest))))
                    = Some (500 + 10 * v2 + v3)).
  { unfold numericPrefix. cbn [numericPrefixFrom].
    change (digitValue "5") with (Some 5). cbn iota. rewrite H2, H3.
    change (digitValue " ") with (@None nat). cbn iota. f_equal. lia. }
  split; [exact Hprefix|]. split.
  - unfold is5xx. rewrite Hprefix.
    apply andb_true_iff. split; apply Nat.leb_le; lia.
  - unfold catchSeverity. rewrite Ha, Hw, Hh, SStartsWith_50. reflexivity.
Qed.

(** ** How an unrecognized command is logged *)

Lemma dispatchEvents_no_alert (evs : list Event) :
  forallb isDispatchEvent evs = true -> loggedAt LOG_ALERT evs = [].
Proof.
  induction evs as [|ev evs IH]; simpl; [reflexivity|].
  intros H. apply andb_true_iff in H. destruct H as [Hev Hevs].
  specialize (IH Hevs).
  destruct ev as [sev msg| | | | | | |]; try discriminate Hev; try exact IH.
  destruct sev; try discriminate Hev. exact IH.
Qed.

(** X18. A command that is not the upgrade command and that every enabled
    plugin, asked in turn on it, declines, once the transaction is begun,
    is logged as a warning, once, "Command '...' does not exist."; the
    line the catch block then logs for "430 Unrecognized command" is
    informational, and no alert is logged. *)
Theorem unrecognized_command_warns_without_alert (s : State) :
  beginOk (db s) = true ->
  SIEquals (methodLine (request (command s))) "UpgradeDatabase" = false ->
  onRun processCommand hookDeclines g_registeredPluginList
        (mkState (begun (db s)) (command s)) ->
  exists s2 evs,
    _processCommand SComposeJSONObject serialize g_registeredPluginList s
    = (Ok tt, s2, evs)
    /\ warnings evs
       = ["Command '" ++ methodLine (request (command s2)) ++ "' does not exist."]
    /\ loggedAt LOG_ALERT evs = []
    /\ In (EvLog LOG_INFO
                 (processErrorMessage serialize (command s2) "430 Unrecognized command"))
          evs.
Proof.
  intros Hbegin Hother Hdecline.
  rewrite processCommand_eq, (processTry_begun _ _ _ Hbegin).
  rewrite dispatchStep_other by exact Hother.
  destruct (processLoop_declining_run _ _ Hdecline) as (s1 & Hloop).
  rewrite Hloop. eexists _, _. split; [reflexivity|].
  pose proof (processLoop_events _ _ _ _ _ Hloop) as Hev.
  pose proof (dispatchEvents_no_alert _ Hev) as Hal.
  apply dispatchEvents_quiet in Hev. destruct Hev as (_ & _ & Hw).
  split; [|split].
  - rewrite app_comm_cons, warnings_app, (warnings_cons (EvLog LOG_DEBUG _)),
      (warnings_cons EvBeginTransaction), warnings_app, Hw. reflexivity.
  - rewrite app_comm_cons, loggedAt_app.
    change (EvLog LOG_DEBUG ("Received '" ++ methodLine (request (command s)) ++ "'")
            :: EvBeginTransaction
            :: map EvProcessCommand (filter enabled g_registeredPluginList)
               ++ [EvLog LOG_WARNING
                     ("Command '" ++ methodLine (request (command s1))
                      ++ "' does not exist.")])
      with ([EvLog LOG_DEBUG ("Received '" ++ methodLine (request (command s)) ++ "'");
             EvBeginTransaction]
            ++ map EvProcessCommand (filter enabled g_registeredPluginList)
            ++ [EvLog LOG_WARNING
                  ("Command '" ++ methodLine (request (command s1))
                   ++ "' does not exist.")])%list.
    rewrite !loggedAt_app, Hal. reflexivity.
  - right. right. apply in_or_app. right. right. now left.
Qed.

End Coverage.

(** ** The added properties on sample collaborators *)

(** Nobody claims "Echo": the one enabled plugin claims "Read" only. *)
Lemma peek_false_only_after_all_declined_witness :
  _peekCommand composeJSONObject serializeData
               [pickyPlugin "Read" [("id", "1")]; idlePlugin "Jobs" false]
               (start true true "Echo")
  = (Ok false, optimistic (start true true "Echo"),
     [EvLog LOG_DEBUG "Peeking at 'Echo'";
      EvPeekCommand (pickyPlugin "Read" [("id", "1")]);
      EvLog LOG_INFO "Command 'Echo' is not peekable, queuing for processing."])
  /\ onRun peekCommand hookDeclines
           [pickyPlugin "Read" [("id", "1")]; idlePlugin "Jobs" false]
           (optimistic (start true true "Echo"))
  /\ peekCalls [EvLog LOG_DEBUG "Peeking at 'Echo'";
                EvPeekCommand (pickyPlugin "Read" [("id", "1")]);
                EvLog LOG_INFO "Command 'Echo' is not peekable, queuing for processing."]
     = filter enabled [pickyPlugin "Read" [("id", "1")]; idlePlugin "Jobs" false]
  /\ optimistic (start true true "Echo")
     = afterPeekHooks [pickyPlugin "Read" [("id", "1")]; idlePlugin "Jobs" false]
                      (optimistic (start true true "Echo"))
  /\ warnings [EvLog LOG_DEBUG "Peeking at 'Echo'";
               EvPeekCommand (pickyPlugin "Read" [("id", "1")]);
               EvLog LOG_INFO "Command 'Echo' is not peekable, queuing for processing."]
     = [].
Proof.
  split; [reflexivity|].
  apply (peek_false_only_after_all_declined composeJSONObject serializeData
           [pickyPlugin "Read" [("id", "1")]; idlePlugin "Jobs" false]
           (start true true "Echo")).
  reflexivity.
Defined.

(** The reader claims "Read"; a plugin that would throw is registered
    after it. *)
Lemma peek_ignores_plugins_after_answer_witness :
  peekLoop [idlePlugin "DB" true; reader] (optimistic (start true true "Read"))
  = (Ok true, readPeeked EmptyString,
     [EvPeekCommand (idlePlugin "DB" true); EvPeekCommand reader;
      EvLog LOG_INFO "Plugin 'Answer' peeked command 'Read'"])
  /\ Ok true <> Ok false
  /\ _peekCommand composeJSONObject serializeData
       ([idlePlugin "DB" true; reader] ++ [throwingPlugin "500 Unknown server failure"])
       (start true true "Read")
     = _peekCommand composeJSONObject serializeData [idlePlugin "DB" true; reader]
                    (start true true "Read").
Proof.
  assert (Hr : Ok true <> Ok false) by (intros H; discriminate H).
  split; [reflexivity|]. split; [exact Hr|].
  apply (peek_ignores_plugins_after_answer composeJSONObject serializeData
           [idlePlugin "DB" true; reader] [throwingPlugin "500 Unknown server failure"]
           (start true true "Read") (readPeeked EmptyString) (Ok true)
           [EvPeekCommand (idlePlugin "DB" true); EvPeekCommand reader;
            EvLog LOG_INFO "Plugin 'Answer' peeked command 'Read'"]).
  - reflexivity.
  - exact Hr.
Defined.

(** The writer claims "Write"; a plugin that would throw is registered
    after it. *)
Lemma process_ignores_plugins_after_answer_witness :
  SIEquals (methodLine (request (command (start true true "Write")))) "UpgradeDatabase"
  = false
  /\ processLoop [writer]
       (mkState (begun (db (start true true "Write"))) (command (start true true "Write")))
     = (Ok true, written true,
        [EvProcessCommand writer;
         EvLog LOG_INFO "Plugin 'Answer' processed command 'Write'"])
  /\ Ok true <> Ok false
  /\ _processCommand composeJSONObject serializeData
       ([writer] ++ [throwingPlugin "500 Unknown server failure"])
       (start true true "Write")
     = _processCommand composeJSONObject serializeData [writer] (start true true "Write").
Proof.
  assert (Hr : Ok true <> Ok false) by (intros H; discriminate H).
  split; [reflexivity|]. split; [reflexivity|]. split; [exact Hr|].
  apply (process_ignores_plugins_after_answer composeJSONObject serializeData
           [writer] [throwingPlugin "500 Unknown server failure"]
           (start true true "Write") (written true) (Ok true)
           [EvProcessCommand writer;
            EvLog LOG_INFO "Plugin 'Answer' processed command 'Write'"]).
  - reflexivity.
  - reflexivity.
  - exact Hr.
Defined.

(** The reader claims "Read" in the peek phase. *)
Lemma peek_success_keeps_plugin_answer_witness :
  peekLoop [reader] (optimistic (start true true "Read"))
  = (Ok true, readPeeked EmptyString,
     [EvPeekCommand reader; EvLog LOG_INFO "Plugin 'Answer' peeked command 'Read'"])
  /\ exists evs,
      _peekCommand composeJSONObject serializeData [reader] (start true true "Read")
      = (Ok true,
         mkState (db (readPeeked EmptyString))
                 (if tempty (jsonContent (command (readPeeked EmptyString)))
                  then command (readPeeked EmptyString)
                  else set_response_content (command (readPeeked EmptyString))
                         (composeJSONObject
                            (jsonContent (command (readPeeked EmptyString))))),
         evs).
Proof.
  split; [reflexivity|].
  apply (peek_success_keeps_plugin_answer composeJSONObject serializeData [reader]
           (start true true "Read") (readPeeked EmptyString)
           [EvPeekCommand reader; EvLog LOG_INFO "Plugin 'Answer' peeked command 'Read'"]).
  reflexivity.
Defined.

(** The writer claims "Write" and the engine prepares. *)
Lemma process_success_keeps_plugin_answer_witness :
  (beginStep ;; dispatchStep [writer]) (start true true "Write")
  = (Ok tt, written true,
     [EvBeginTransaction; EvProcessCommand writer;
      EvLog LOG_INFO "Plugin 'Answer' processed command 'Write'"])
  /\ (uncommittedQuery (db (written true)) = EmptyString
      \/ prepareOk (db (written true)) = true)
  /\ exists evs,
      _processCommand composeJSONObject serializeData [writer] (start true true "Write")
      = (Ok tt,
         mkState (if sempty (uncommittedQuery (db (written true)))
                  then SQLite_rollback (db (written true))
                  else db (written true))
                 (if tempty (jsonContent (command (written true)))
                  then command (written true)
                  else set_response_content (command (written true))
                         (composeJSONObject (jsonContent (command (written true))))),
         evs).
Proof.
  split; [reflexivity|]. split; [right; reflexivity|].
  apply (process_success_keeps_plugin_answer composeJSONObject serializeData [writer]
           (start true true "Write") (written true)
           [EvBeginTransaction; EvProcessCommand writer;
            EvLog LOG_INFO "Plugin 'Answer' processed command 'Write'"]).
  - reflexivity.
  - right. reflexivity.
Defined.

(** The engine refuses to begin. *)
Lemma process_begin_failure_witness :
  beginOk (db (start false true "Write")) = false
  /\ _processCommand composeJSONObject serializeData [writer] (start false true "Write")
     = (Ok tt,
        mkState (SQLite_rollback (db (start false true "Write")))
                (set_response_methodLine (command (start false true "Write"))
                                         "501 Failed to begin transaction"),
        [EvLog LOG_DEBUG
               ("Received '" ++ methodLine (request (command (start false true "Write")))
                ++ "'");
         EvBeginTransaction;
         EvRollback;
         EvLog LOG_ALERT
               (processErrorMessage serializeData (command (start false true "Write"))
                                    "501 Failed to begin transaction")]).
Proof.
  split; [reflexivity|].
  apply (process_begin_failure composeJSONObject serializeData [writer]
           (start false true "Write")).
  reflexivity.
Defined.

(** "UPGRADEDATABASE", with a schema plugin and a broken one. *)
Lemma upgrade_leaves_command_witness :
  SIEquals (methodLine (request (command (start true true "UPGRADEDATABASE"))))
           "UpgradeDatabase" = true
  /\ exists s2 evs,
      _processCommand composeJSONObject serializeData
                      [schemaPlugin "Jobs" true; brokenSchemaPlugin]
                      (start true true "UPGRADEDATABASE")
      = (Ok tt, s2, evs)
      /\ request (command s2) = request (command (start true true "UPGRADEDATABASE"))
      /\ nameValueMap (response (command s2))
         = nameValueMap (response (command (start true true "UPGRADEDATABASE")))
      /\ jsonContent (command s2)
         = jsonContent (command (start true true "UPGRADEDATABASE"))
      /\ httpsRequest (command s2)
         = httpsRequest (command (start true true "UPGRADEDATABASE"))
      /\ (methodLine (response (command s2))
          = methodLine (response (command (start true true "UPGRADEDATABASE")))
          \/ In (EvLog (catchSeverity (methodLine (response (command s2))))
                       (processErrorMessage serializeData
                          (command (start true true "UPGRADEDATABASE"))
                          (methodLine (response (command s2))))) evs).
Proof.
  split; [reflexivity|].
  apply (upgrade_leaves_command composeJSONObject serializeData
           [schemaPlugin "Jobs" true; brokenSchemaPlugin]
           (start true true "UPGRADEDATABASE")).
  reflexivity.
Defined.

(** "404_WARN_ Not Found" and "404_HMMM_ Not Found". *)
Lemma marker_decides_severity_witness :
  SContains ("404" ++ "_WARN_" ++ " Not Found") "_ALERT_" = false
  /\ SContains ("404" ++ "_HMMM_" ++ " Not Found") "_ALERT_" = false
  /\ SContains ("404" ++ "_HMMM_" ++ " Not Found") "_WARN_" = false
  /\ catchSeverity ("404" ++ "_ALERT_" ++ " Not Found") = LOG_ALERT
  /\ catchSeverity ("404" ++ "_WARN_" ++ " Not Found") = LOG_WARNING
  /\ catchSeverity ("404" ++ "_HMMM_" ++ " Not Found") = LOG_NOTICE.
Proof.
  destruct (marker_decides_severity "404" " Not Found") as (Halert & Hwarn & Hhmmm).
  split; [reflexivity|]. split; [reflexivity|]. split; [reflexivity|].
  split; [exact Halert|]. split; [exact (Hwarn eq_refl)|exact (Hhmmm eq_refl eq_refl)].
Defined.

(** "534 Unexpected HTTP request/response". *)
Lemma unmarked_5xx_alerts_only_below_510_witness :
  digitValue "3" = Some 3
  /\ digitValue "4" = Some 4
  /\ SContains (String "5" (String "3" (String "4"
                  (String " " "Unexpected HTTP request/response")))) "_ALERT_" = false
  /\ SContains (String "5" (String "3" (String "4"
                  (String " " "Unexpected HTTP request/response")))) "_WARN_" = false
  /\ SContains (String "5" (String "3" (String "4"
                  (String " " "Unexpected HTTP request/response")))) "_HMMM_" = false
  /\ numericPrefix (String "5" (String "3" (String "4"
                      (String " " "Unexpected HTTP request/response"))))
     = Some (500 + 10 * 3 + 4)
  /\ is5xx (String "5" (String "3" (String "4"
              (String " " "Unexpected HTTP request/response")))) = true
  /\ catchSeverity (String "5" (String "3" (String "4"
                      (String " " "Unexpected HTTP request/response"))))
     = if Ascii.eqb "3" "0" then LOG_ALERT else LOG_INFO.
Proof.
  split; [reflexivity|]. split; [reflexivity|]. split; [reflexivity|].
  split; [reflexivity|]. split; [reflexivity|].
  apply (unmarked_5xx_alerts_only_below_510 "3" "4" 3 4
           "Unexpected HTTP request/response"); reflexivity.
Defined.

(** Nobody knows "Bogus": the one enabled plugin claims "Read" only. *)
Lemma unrecognized_command_warns_without_alert_witness :
  beginOk (db (start true true "Bogus")) = true
  /\ SIEquals (methodLine (request (command (start true true "Bogus"))))
              "UpgradeDatabase" = false
  /\ onRun processCommand hookDeclines
           [pickyPlugin "Read" [("id", "1")]; idlePlugin "Jobs" false]
           (mkState (begun (db (start true true "Bogus")))
                    (command (start true true "Bogus")))
  /\ exists s2 evs,
      _processCommand composeJSONObject serializeData
                      [pickyPlugin "Read" [("id", "1")]; idlePlugin "Jobs" false]
                      (start true true "Bogus")
      = (Ok tt, s2, evs)
      /\ warnings evs
         = ["Command '" ++ methodLine (request (command s2)) ++ "' does not exist."]
      /\ loggedAt LOG_ALERT evs = []
      /\ In (EvLog LOG_INFO
                   (processErrorMessage serializeData (command s2)
                                        "430 Unrecognized command"))
            evs.
Proof.
  assert (Hdecline :
            onRun processCommand hookDeclines
                  [pickyPlugin "Read" [("id", "1")]; idlePlugin "Jobs" false]
                  (mkState (begun (db (start true true "Bogus")))
                           (command (start true true "Bogus"))))
    by (simpl; split; reflexivity || exact I).
  split; [reflexivity|]. split; [reflexivity|]. split; [exact Hdecline|].
  exact (unrecognized_command_warns_without_alert composeJSONObject serializeData
           [pickyPlugin "Read" [("id", "1")]; idlePlugin "Jobs" false]
           (start true true "Bogus") eq_refl eq_refl Hdecline).
Defined.
